(** * Laminar examples: the service verifier and its configuration

    A shallow embedding of [examples/config.py] and
    [examples/05_verify_service.py], and the properties of the verifier
    stated against it.

    - Python [str] values are lists of Unicode code points.
    - [os.environ] is a finite map from [str] to [str]; the model reads
      of it what the program reads.  What the libraries and the
      interpreter read of the environment themselves (the [OTEL_...]
      variables, [PYTHONIOENCODING]) shows in the world's answers and in
      its standard output.
    - Every call into a library (httpx, lmnr, opentelemetry, time) is an
      external call: it either returns or raises an [Exception]; what it
      does is decided by a [World], which sees the whole history of the
      run.
    - [print] writes to the standard output, whose encoding belongs to the
      world: a line with a character the encoding does not have is not
      written and [print] raises.
    - The verifier threads a log of events and a completion (normal, a
      propagating exception, or [SystemExit]). *)

From Stdlib Require Import ZArith NArith QArith.QArith_base List String Ascii DecimalString Lia.
From stdpp Require Import base option list gmap.

Local Open Scope Z_scope.
Local Open Scope list_scope.

(** ** Python strings *)

(** A [str] is a sequence of code points. *)
Abbreviation str := (list N).

(** An ASCII literal of the source, as code points. *)
Definition lit (s : string) : str :=
  List.map N_of_ascii (list_ascii_of_string s).

Definition em_dash : N := 8212.      (* U+2014 *)
Definition right_arrow : N := 8594.  (* U+2192 *)
Definition newline : N := 10.

(** [c.isspace()] for a single code point, which is what [str.strip()]
    without argument removes: the characters of bidirectional type WS, B
    or S, or of category Zs. *)
Definition isspace (c : N) : bool :=
  ((9 <=? c) && (c <=? 13) || (28 <=? c) && (c <=? 32) ||
   (c =? 133) || (c =? 160) || (c =? 5760) ||
   (8192 <=? c) && (c <=? 8202) ||
   (c =? 8232) || (c =? 8233) || (c =? 8239) || (c =? 8287) || (c =? 12288))%N.

Fixpoint lstrip (s : str) : str :=
  match s with
  | [] => []
  | c :: s' => if isspace c then lstrip s' else s
  end.

Definition rstrip (s : str) : str := rev (lstrip (rev s)).

(** [s.strip()] *)
Definition strip (s : str) : str := rstrip (lstrip s).

(** [str(n)] and [f"{n}"] for an [int]. *)
Definition str_of_int (n : Z) : str := lit (NilZero.string_of_int (Z.to_int n)).

(** [c * n] for a one-character string [c]. *)
Definition str_mul (c : str) (n : nat) : str := List.concat (repeat c n).

(** ** examples/config.py *)

Section Config.

(** [os.environ] *)
Variable environ : gmap (list N) (list N).

(** [os.environ.get(name, fallback)] *)
Definition environ_get (name fallback : str) : str :=
  default fallback (environ !! name).

Definition BASE_URL : str :=
  environ_get (lit "LAMINAR_BASE_URL") (lit "https://laminar.orbitronai.com").
Definition OTLP_GRPC_URL : str :=
  environ_get (lit "LAMINAR_OTLP_GRPC_URL") (lit "https://otlp-grpc.laminar.orbitronai.com:443").
Definition OTLP_HTTP_URL : str :=
  environ_get (lit "LAMINAR_OTLP_HTTP_URL") (lit "https://otlp-http.laminar.orbitronai.com").

End Config.


(** ** The outside world *)

(** An instance of [Exception]; [str(exc)] is its text.  The calls the
    verifier makes raise nothing else ([KeyboardInterrupt] and the like are
    not raised by a call, and are not modelled). *)
Inductive exn : Type := Exception (text : str).

Definition str_exc (exc : exn) : str := let 'Exception text := exc in text.

(** What an external call does: it returns a value or raises. *)
Inductive outcome (R : Type) : Type :=
| Returns (r : R)
| Raises (exc : exn).
Arguments Returns {R} r.
Arguments Raises {R} exc.

(** Of an HTTP response the verifier reads the status code only. *)
Record Response : Type := { status_code : Z }.

Abbreviation headers := (list (str * str)).

(** An OTLP span exporter, described by the arguments it is built from. *)
Inductive exporter : Type :=
| GrpcExporter (endpoint : str) (hdrs : headers)
| HttpExporter (endpoint : str) (hdrs : headers).

(** The resource of a tracer provider; it also identifies the provider. *)
Abbreviation resource := (list (str * str)).

(** The library calls of [05_verify_service.py], indexed by what they
    return. *)
Inductive call : Type -> Type :=
(* httpx *)
| httpx_get (url : str) (timeout : Z) (follow_redirects : bool) : call Response
| httpx_post (url : str) (hdrs : headers) (content : list Byte.byte) (timeout : Z) : call Response
| httpx_Client (http2 : bool) (timeout : Z) : call unit
| client_post (url : str) (hdrs : headers) (content : list Byte.byte) : call Response
| client_exit : call unit
(* lmnr *)
| import_lmnr : call unit
| Laminar_initialize (project_api_key base_url : str) : call unit
| observe (name : str) : call unit
| observe_enter (name : str) : call unit
| observe_exit (name : str) : call unit
| Laminar_flush : call bool
(* time *)
| time_sleep (seconds : Q) : call unit
(* opentelemetry *)
| new_exporter (e : exporter) : call unit
| Resource_create (attributes : resource) : call unit
| TracerProvider (res : resource) : call unit
| BatchSpanProcessor (e : exporter) : call unit
| add_span_processor (res : resource) (e : exporter) : call unit
| get_tracer (res : resource) (name : str) : call unit
| start_as_current_span (res : resource) (name : str) : call unit
| set_attribute (res : resource) (key : str) (value : bool) : call unit
| span_exit (res : resource) (name : str) : call unit
| force_flush (res : resource) (timeout_millis : Z) : call bool
| shutdown (res : resource) : call unit.

(** The spec's [CheckResult]: the three arguments [_check] is called with. *)
Record CheckResult : Type := { label : str; passed : bool; detail : str }.

Inductive stream : Type := stdout | stderr.

(** What a run leaves behind.  [EvPrint] is a line that was written,
    [EvPrintFailed] a [print] to the standard output that raised (nothing
    is written then).  [EvCheck] is a ghost event: it records the
    [CheckResult] of a call of [_check], before the line is printed. *)
Inductive event : Type :=
| EvCall {R : Type} (c : call R) (o : outcome R)
| EvPrint (f : stream) (text : str)
| EvPrintFailed (text : str) (exc : exn)
| EvCheck (r : CheckResult).

(** The standard output of the process, as far as [print] depends on it:
    which characters beyond ASCII its encoding has, and the
    [UnicodeEncodeError] that [print] raises for a text it cannot encode. *)
Record Console : Type := {
  stdout_encodes : N -> bool;
  encode_error : str -> exn
}.

(** The encoding of the standard output has the character: every encoding
    has the ASCII ones. *)
Definition encodes (con : Console) (c : N) : bool :=
  (c <? 128)%N || stdout_encodes con c.

(** The standard output can take the text. *)
Definition printable (con : Console) (text : str) : bool :=
  forallb (encodes con) text.

(** The world answers a call knowing everything that happened before it
    (most recent event first), and it fixes the standard output. *)
Record World : Type := {
  answers :> list event -> forall R : Type, call R -> outcome R;
  console :> Console
}.

(** ** Completions and the verifier's monad *)

(** How a piece of Python code ends: normally, with an [Exception]
    propagating, or with [SystemExit] propagating ([sys.exit]; it is not an
    [Exception], so [except Exception] lets it through). *)
Inductive completion (A : Type) : Type :=
| Normal (a : A)
| Raised (exc : exn)
| Exited (status : Z).
Arguments Normal {A} a.
Arguments Raised {A} exc.
Arguments Exited {A} status.

(** The log is kept most recent event first. *)
Definition M (A : Type) : Type := list event -> completion A * list event.

Definition ret {A} (a : A) : M A := fun tr => (Normal a, tr).

Definition bind {A B} (m : M A) (k : A -> M B) : M B :=
  fun tr =>
    match m tr with
    | (Normal a, tr') => k a tr'
    | (Raised exc, tr') => (Raised exc, tr')
    | (Exited n, tr') => (Exited n, tr')
    end.

Notation "'let*' x ':=' m 'in' k" := (bind m (fun x => k))
  (at level 10, x name, m at level 100, k at level 200).
Notation "m '>>' k" := (bind m (fun _ => k))
  (at level 100, k at level 200, right associativity).

Definition raise {A} (exc : exn) : M A := fun tr => (Raised exc, tr).

(** [sys.exit(n)] *)
Definition sys_exit {A} (n : Z) : M A := fun tr => (Exited n, tr).

Definition emit (ev : event) : M unit := fun tr => (Normal tt, ev :: tr).

(** [print(text, file=sys.stderr)]: the text without the newline [print]
    adds.  The error stream replaces what its encoding does not have
    (its error handler is always [backslashreplace]), so this cannot fail
    on the text. *)
Definition print_err (text : str) : M unit := emit (EvPrint stderr text).

(** [print(text)]: the line is written when the standard output
    can encode it; otherwise nothing is written and [print] raises. *)
Definition print (con : Console) (text : str) : M unit :=
  fun tr =>
    if printable con text
    then (Normal tt, EvPrint stdout text :: tr)
    else (Raised (encode_error con text),
          EvPrintFailed text (encode_error con text) :: tr).

(** [try: body / except Exception as exc: handler exc] *)
Definition try_except {A} (body : M A) (handler : exn -> M A) : M A :=
  fun tr =>
    match body tr with
    | (Raised exc, tr') => handler exc tr'
    | r => r
    end.

(** [with <enter> as x: body]: [leave] runs however the body ends, and the
    body's exception goes on afterwards ([__exit__] returns nothing). *)
Definition with_ {A} (enter leave : M unit) (body : M A) : M A :=
  enter >>
  fun tr =>
    match body tr with
    | (Normal a, tr') => (leave >> ret a) tr'
    | (Raised exc, tr') => (leave >> raise exc) tr'
    | (Exited n, tr') => (leave >> sys_exit n) tr'
    end.

(** ** examples/config.py: [get_api_key] *)

Definition remediation : str :=
  lit "ERROR: LAMINAR_API_KEY is not set." ++ [newline] ++
  lit "  1. Go to https://laminar.orbitronai.com" ++ [newline] ++
  lit "  2. Open your project " ++ [right_arrow] ++ lit " Settings " ++
    [right_arrow] ++ lit " API Keys" ++ [newline] ++
  lit "  3. export LAMINAR_API_KEY='<your-key>'".

Definition get_api_key (environ : gmap (list N) (list N)) : M str :=
  let key := strip (environ_get environ (lit "LAMINAR_API_KEY") []) in
  match key with
  | [] => print_err remediation >> sys_exit 1
  | _ :: _ => ret key
  end.

(** ** examples/05_verify_service.py *)

Section Verifier.

Variable world : World.
Variable environ : gmap (list N) (list N).

(** An external call: the world decides, the log records. *)
Definition ext {R} (c : call R) : M R :=
  fun tr =>
    match world tr R c with
    | Returns r => (Normal r, EvCall c (Returns r) :: tr)
    | Raises exc => (Raised exc, EvCall c (Raises exc) :: tr)
    end.

Definition _check (label : str) (ok : bool) (detail : str) : M bool :=
  let status := if ok then lit "PASS" else lit "FAIL" in
  let suffix :=
    match detail with
    | [] => []
    | _ :: _ => lit " " ++ [em_dash] ++ lit " " ++ detail
    end in
  emit (EvCheck {| label := label; passed := ok; detail := detail |}) >>
  print world (lit "  [" ++ status ++ lit "] " ++ label ++ suffix) >>
  ret ok.

Definition check_ui_reachable : M bool :=
  try_except
    (let* resp := ext (httpx_get (BASE_URL environ ++ lit "/sign-in") 15 true) in
     _check (lit "UI reachable") (status_code resp =? 200)
            (lit "HTTP " ++ str_of_int (status_code resp)))
    (fun exc => _check (lit "UI reachable") false (str_exc exc)).

Definition check_otlp_http_reachable : M bool :=
  try_except
    (let* resp := ext (httpx_post (OTLP_HTTP_URL environ ++ lit "/v1/traces")
                         [(lit "Content-Type", lit "application/x-protobuf")]
                         [] 15) in
     let ok := existsb (Z.eqb (status_code resp)) [200; 400; 401; 415] in
     _check (lit "OTLP/HTTP endpoint") ok
            (lit "HTTP " ++ str_of_int (status_code resp)))
    (fun exc => _check (lit "OTLP/HTTP endpoint") false (str_exc exc)).

Definition check_otlp_grpc_reachable : M bool :=
  try_except
    (let* resp :=
       with_ (ext (httpx_Client true 15)) (ext client_exit)
         (ext (client_post
                 (OTLP_GRPC_URL environ ++
                  lit "/opentelemetry.proto.collector.trace.v1.TraceService/Export")
                 [(lit "Content-Type", lit "application/grpc"); (lit "TE", lit "trailers")]
                 [])) in
     _check (lit "OTLP/gRPC endpoint (HTTP/2 :443)") true
            (lit "HTTP " ++ str_of_int (status_code resp)))
    (fun exc => _check (lit "OTLP/gRPC endpoint (HTTP/2 :443)") false (str_exc exc)).

(** The decorated [_dummy_op]: the body runs inside the span [observe]
    opens around it. *)
Definition _dummy_op : M str :=
  with_ (ext (observe_enter (lit "verify-sdk-trace")))
        (ext (observe_exit (lit "verify-sdk-trace")))
    (ext (time_sleep (Qmake 1 100)) >> ret (lit "ok")).

Definition check_sdk_export (api_key : str) : M bool :=
  try_except
    (ext import_lmnr >>
     ext (Laminar_initialize api_key (BASE_URL environ)) >>
     ext (observe (lit "verify-sdk-trace")) >>
     _dummy_op >>
     ext Laminar_flush >>
     _check (lit "lmnr SDK trace export") true [])
    (fun exc => _check (lit "lmnr SDK trace export") false (str_exc exc)).

Definition _export_and_check (label : str) (e : exporter) : M bool :=
  try_except
    (let res : resource := [(lit "service.name", lit "verify-" ++ label)] in
     ext (Resource_create res) >>
     ext (TracerProvider res) >>
     ext (BatchSpanProcessor e) >>
     ext (add_span_processor res e) >>
     ext (get_tracer res (lit "verify")) >>
     with_ (ext (start_as_current_span res (lit "verify-" ++ label)))
           (ext (span_exit res (lit "verify-" ++ label)))
       (ext (set_attribute res (lit "test") true) >>
        ext (time_sleep (Qmake 1 100))) >>
     let* flushed := ext (force_flush res 10000) in
     ext (shutdown res) >>
     _check label flushed [])
    (fun exc => _check label false (str_exc exc)).

Definition check_grpc_export (api_key : str) : M bool :=
  let e := GrpcExporter (OTLP_GRPC_URL environ)
             [(lit "authorization", lit "Bearer " ++ api_key)] in
  ext (new_exporter e) >>
  _export_and_check (lit "OTLP/gRPC trace export") e.

Definition check_http_export (api_key : str) : M bool :=
  let e := HttpExporter (OTLP_HTTP_URL environ ++ lit "/v1/traces")
             [(lit "authorization", lit "Bearer " ++ api_key)] in
  ext (new_exporter e) >>
  _export_and_check (lit "OTLP/HTTP trace export") e.

(** [sum(results)] and [all(results)] *)
Definition sum_bools (results : list bool) : Z :=
  Z.of_nat (length (List.filter (fun b => b) results)).
Definition all_bools (results : list bool) : bool := forallb (fun b => b) results.

Definition main : M unit :=
  let* api_key := get_api_key environ in
  print world ([newline] ++ lit "Laminar Service Verification") >>
  print world (str_mul (lit "=") 50) >>
  print world (lit "  UI:        " ++ BASE_URL environ) >>
  print world (lit "  OTLP HTTP: " ++ OTLP_HTTP_URL environ) >>
  print world (lit "  OTLP gRPC: " ++ OTLP_GRPC_URL environ) >>
  print world (str_mul (lit "=") 50 ++ [newline]) >>
  let results : list bool := [] in
  print world (lit "Connectivity:") >>
  let* r := check_ui_reachable in
  let results := results ++ [r] in
  let* r := check_otlp_http_reachable in
  let results := results ++ [r] in
  let* r := check_otlp_grpc_reachable in
  let results := results ++ [r] in
  print world ([newline] ++ lit "Trace Export:") >>
  let* r := check_sdk_export api_key in
  let results := results ++ [r] in
  let* r := check_grpc_export api_key in
  let results := results ++ [r] in
  let* r := check_http_export api_key in
  let results := results ++ [r] in
  let passed := sum_bools results in
  let total := Z.of_nat (length results) in
  print world ([newline] ++ str_mul (lit "=") 50) >>
  print world (lit "Results: " ++ str_of_int passed ++ lit "/" ++ str_of_int total ++ lit " passed") >>
  if all_bools results
  then print world (lit "Laminar is fully operational!")
  else print world (lit "Some checks failed " ++ [em_dash] ++ lit " see details above.") >>
       sys_exit 1.

End Verifier.

(** ** The process *)

(** The exit status of the interpreter: 0 when [main] returns, the argument
    of [sys.exit], and 1 when an exception reaches the top level. *)
Definition exit_status {A} (c : completion A) : Z :=
  match c with
  | Normal _ => 0
  | Raised _ => 1
  | Exited n => n
  end.

(** [python examples/05_verify_service.py]: the exit status and the log of
    the run in the order things happened. *)
Definition run (world : World) (environ : gmap (list N) (list N)) : Z * list event :=
  let '(c, tr) := main world environ [] in (exit_status c, rev tr).

(** ** Reading a log *)

Definition as_check (ev : event) : option CheckResult :=
  match ev with
  | EvCheck r => Some r
  | _ => None
  end.

(** The [CheckResult]s of a log, in the order of the log. *)
Definition results_of (log : list event) : list CheckResult := omap as_check log.

(** The six checks, by label, in the order [main] runs them. *)
Definition check_labels : list str :=
  [ lit "UI reachable";
    lit "OTLP/HTTP endpoint";
    lit "OTLP/gRPC endpoint (HTTP/2 :443)";
    lit "lmnr SDK trace export";
    lit "OTLP/gRPC trace export";
    lit "OTLP/HTTP trace export" ].

(** A call that raised. *)
Definition raised (ev : event) : bool :=
  match ev with
  | EvCall _ (Raises _) => true
  | _ => false
  end.

(** A [print] to the standard output raised. *)
Definition print_failed (ev : event) : bool :=
  match ev with
  | EvPrintFailed _ _ => true
  | _ => false
  end.

(** The exception of a call that raised. *)
Definition raised_exc (ev : event) : option exn :=
  match ev with
  | EvCall _ (Raises exc) => Some exc
  | _ => None
  end.

(** The flag a [force_flush] returned. *)
Definition flushed_flag (ev : event) : option bool :=
  match ev with
  | EvCall c o =>
      match c in call R return outcome R -> option bool with
      | force_flush _ _ => fun o => match o with Returns b => Some b | Raises _ => None end
      | _ => fun _ => None
      end o
  | _ => None
  end.


Definition is_shutdown (ev : event) : bool :=
  match ev with
  | EvCall (shutdown _) _ => true
  | _ => false
  end.

(** A tracer provider was built: from here on the probe holds a pipeline. *)
Definition is_pipeline_built (ev : event) : bool :=
  match ev with
  | EvCall (TracerProvider _) (Returns _) => true
  | _ => false
  end.

Definition exporter_headers (e : exporter) : headers :=
  match e with
  | GrpcExporter _ hdrs | HttpExporter _ hdrs => hdrs
  end.

(** The headers an exporter is built with. *)
Definition authorization_of (ev : event) : option headers :=
  match ev with
  | EvCall (new_exporter e) _ => Some (exporter_headers e)
  | _ => None
  end.

Definition authorizations (log : list event) : list headers := omap authorization_of log.

(** The credential the SDK is initialised with. *)
Definition sdk_key_of (ev : event) : option str :=
  match ev with
  | EvCall (Laminar_initialize key _) _ => Some key
  | _ => None
  end.

Definition sdk_keys (log : list event) : list str := omap sdk_key_of log.

(** The construction of an exporter raised. *)
Definition exporter_rejected (ev : event) : bool :=
  match ev with
  | EvCall (new_exporter _) (Raises _) => true
  | _ => false
  end.

(** What the run printed on the standard output, line by line. *)
Definition stdout_line (ev : event) : option str :=
  match ev with
  | EvPrint stdout text => Some text
  | _ => None
  end.

Definition stdout_lines (log : list event) : list str := omap stdout_line log.

(** The credential variable is unset, empty or holds white space only. *)
Definition is_blank (v : option str) : bool :=
  match v with
  | None => true
  | Some s => forallb isspace s
  end.

(** What [main] prints before the first probe. *)
Definition banner (environ : gmap (list N) (list N)) : list event :=
  [ EvPrint stdout ([newline] ++ lit "Laminar Service Verification");
    EvPrint stdout (str_mul (lit "=") 50);
    EvPrint stdout (lit "  UI:        " ++ BASE_URL environ);
    EvPrint stdout (lit "  OTLP HTTP: " ++ OTLP_HTTP_URL environ);
    EvPrint stdout (lit "  OTLP gRPC: " ++ OTLP_GRPC_URL environ);
    EvPrint stdout (str_mul (lit "=") 50 ++ [newline]);
    EvPrint stdout (lit "Connectivity:") ].

(** ** Some worlds and environments *)

(** Every call returns: the HTTP calls with [status], the SDK's flush with
    [sdk_flushed], [force_flush] with [flushed]. *)
Definition answer (status : Z) (sdk_flushed flushed : bool) (R : Type) (c : call R) : outcome R :=
  match c in call R return outcome R with
  | httpx_get _ _ _ | httpx_post _ _ _ _ | client_post _ _ _ =>
      Returns {| status_code := status |}
  | Laminar_flush => Returns sdk_flushed
  | force_flush _ _ => Returns flushed
  | _ => Returns tt
  end.

(** A UTF-8 standard output: it has every character. *)
Definition utf8_console : Console :=
  {| stdout_encodes := fun _ => true;
     encode_error := fun _ => Exception (lit "'utf-8' codec can't encode character") |}.

(** An ASCII standard output (as with [PYTHONIOENCODING=ascii]). *)
Definition ascii_console : Console :=
  {| stdout_encodes := fun _ => false;
     encode_error := fun _ =>
       Exception (lit "'ascii' codec can't encode character: ordinal not in range(128)") |}.

Definition utf8_stdout
    (answers : list event -> forall R : Type, call R -> outcome R) : World :=
  {| answers := answers; console := utf8_console |}.

Definition ascii_stdout
    (answers : list event -> forall R : Type, call R -> outcome R) : World :=
  {| answers := answers; console := ascii_console |}.

Definition healthy : World := utf8_stdout (fun _ => answer 200 true true).

(** Everything answers as in [healthy], but the standard output is ASCII. *)
Definition healthy_ascii : World := ascii_stdout (fun _ => answer 200 true true).


(** The gRPC exporter cannot be built (for one, a compression named in
    [OTEL_EXPORTER_OTLP_COMPRESSION] that the exporter does not know). *)
Definition grpc_exporter_rejected : World :=
  utf8_stdout (fun _ R c =>
    match c in call R return outcome R with
    | new_exporter (GrpcExporter _ _) => Raises (Exception (lit "invalid compression"))
    | c' => answer 200 true true _ c'
    end).

(** The backend is down when the pipeline flushes. *)
Definition flush_raises : World :=
  utf8_stdout (fun _ R c =>
    match c in call R return outcome R with
    | force_flush _ _ => Raises (Exception (lit "connection refused"))
    | c' => answer 200 true true _ c'
    end).

(** The same, with an ASCII standard output. *)
Definition flush_raises_ascii : World :=
  ascii_stdout (fun _ R c =>
    match c in call R return outcome R with
    | force_flush _ _ => Raises (Exception (lit "connection refused"))
    | c' => answer 200 true true _ c'
    end).

(** The UI refuses the connection. *)
Definition ui_refuses : World :=
  utf8_stdout (fun _ R c =>
    match c in call R return outcome R with
    | httpx_get _ _ _ => Raises (Exception (lit "[Errno 111] Connection refused"))
    | c' => answer 200 true true _ c'
    end).

(** The UI answers 404. *)
Definition ui_not_found : World :=
  utf8_stdout (fun _ R c =>
    match c in call R return outcome R with
    | httpx_get _ _ _ => Returns {| status_code := 404 |}
    | c' => answer 200 true true _ c'
    end).

Definition env_padded_key : gmap (list N) (list N) :=
  <[lit "LAMINAR_API_KEY" := lit "  k-123 " ++ [newline]]> ∅.

Definition env_empty_url : gmap (list N) (list N) :=
  <[lit "LAMINAR_BASE_URL" := []]> ∅.

Definition env_blank_key : gmap (list N) (list N) :=
  <[lit "LAMINAR_API_KEY" := lit "   "]> ∅.

(** ** What a probe does to the log *)

(** The line [_check] prints for a [CheckResult]. *)
Definition check_line (r : CheckResult) : str :=
  lit "  [" ++ (if passed r then lit "PASS" else lit "FAIL") ++ lit "] " ++ label r ++
  match detail r with
  | [] => []
  | _ :: _ => lit " " ++ [em_dash] ++ lit " " ++ detail r
  end.

(** An HTTP request of the run: its URL and its headers. *)
Definition request_of (ev : event) : option (str * headers) :=
  match ev with
  | EvCall (httpx_get url _ _) _ => Some (url, [])
  | EvCall (httpx_post url hdrs _ _) _ => Some (url, hdrs)
  | EvCall (client_post url hdrs _) _ => Some (url, hdrs)
  | _ => None
  end.

Definition requests (log : list event) : list (str * headers) := omap request_of log.

(** The exporters the run tried to build. *)
Definition exporter_of (ev : event) : option exporter :=
  match ev with
  | EvCall (new_exporter e) _ => Some e
  | _ => None
  end.

Definition exporters (log : list event) : list exporter := omap exporter_of log.

(** How a probe that catches at its boundary can end, and what it has
    added to the log by then.  Either nothing went wrong with printing:
    then it returns the [passed] of the one [CheckResult] it recorded and
    has printed its line.  Or a [print] raised: then a failed [CheckResult]
    is on record, and the probe ends with the exception of the last
    [print], or returns false when the handler could print its line. *)
Definition probe_end (lbl : str) (c : completion bool) (new : list event) : Prop :=
  Forall (fun r => label r = lbl) (results_of new) /\
  match c with
  | Normal b =>
      (existsb print_failed new = false /\
       exists r, results_of new = [r] /\ passed r = b /\ stdout_lines new = [check_line r]) \/
      (existsb print_failed new = true /\ b = false /\
       forallb passed (results_of new) = false)
  | Raised _ =>
      existsb print_failed new = true /\ forallb passed (results_of new) = false
  | Exited _ => False
  end.

(** How an export probe ends once its exporter is there.  The line of a
    passed check is plain ASCII, so only the handler's line can fail to
    print: the probe records one [CheckResult] [r] in every case, and
    either returns its [passed] with the line printed, or a call raised,
    the line of the failed check could not be printed and the
    [UnicodeEncodeError] leaves the probe. *)
Definition export_end (world : World) (lbl : str) (c : completion bool)
    (new : list event) (r : CheckResult) : Prop :=
  results_of new = [r] /\ label r = lbl /\
  ((existsb print_failed new = false /\ c = Normal (passed r) /\
    stdout_lines new = [check_line r]) \/
   (existsb print_failed new = true /\ existsb raised new = true /\
    passed r = false /\ printable world (check_line r) = false /\
    c = Raised (encode_error world (check_line r)) /\ stdout_lines new = [])).

Definition export_probe (world : World) (m : M bool) (lbl : str) (tr : list event)
    (P : list event -> CheckResult -> Prop) : Prop :=
  exists c new r,
    m tr = (c, new ++ tr) /\ export_end world lbl c new r /\ P new r.

(** The headers both exporters are built with in [main]. *)
Definition key_headers (key : str) : headers :=
  [(lit "authorization", lit "Bearer " ++ key)].

(** What one of the six probes of [main] adds to the log: the requests
    [rqs], the exporters [exps], the SDK initialised with [key] if at all;
    and the probe ends as [probe_end] says, unless it is a direct export
    probe whose exporter could not be built: the constructor's exception
    leaves the probe with nothing recorded and nothing printed. *)
Definition segment (lbl : str) (rqs : list (str * headers)) (exps : list exporter)
    (key : str) (c : completion bool) (new : list event) : Prop :=
  requests new = rqs /\ exporters new = exps /\ Forall (eq key) (sdk_keys new) /\
  ((existsb exporter_rejected new = false /\ probe_end lbl c new) \/
   (existsb exporter_rejected new = true /\ existsb print_failed new = false /\
    results_of new = [] /\ stdout_lines new = [] /\ exists exc, c = Raised exc)).

(** The three requests of the connectivity probes. *)
Definition ui_request (environ : gmap (list N) (list N)) : str * headers :=
  (BASE_URL environ ++ lit "/sign-in", []).
Definition otlp_http_request (environ : gmap (list N) (list N)) : str * headers :=
  (OTLP_HTTP_URL environ ++ lit "/v1/traces",
   [(lit "Content-Type", lit "application/x-protobuf")]).
Definition otlp_grpc_request (environ : gmap (list N) (list N)) : str * headers :=
  (OTLP_GRPC_URL environ ++ lit "/opentelemetry.proto.collector.trace.v1.TraceService/Export",
   [(lit "Content-Type", lit "application/grpc"); (lit "TE", lit "trailers")]).

(** The two exporters of the direct probes. *)
Definition grpc_exporter (environ : gmap (list N) (list N)) (key : str) : exporter :=
  GrpcExporter (OTLP_GRPC_URL environ) [(lit "authorization", lit "Bearer " ++ key)].
Definition http_exporter (environ : gmap (list N) (list N)) (key : str) : exporter :=
  HttpExporter (OTLP_HTTP_URL environ ++ lit "/v1/traces")
    [(lit "authorization", lit "Bearer " ++ key)].

(** ** More readers of a log *)

Definition client_opened (ev : event) : bool :=
  match ev with
  | EvCall (httpx_Client _ _) (Returns _) => true
  | _ => false
  end.

Definition client_closed (ev : event) : bool :=
  match ev with
  | EvCall client_exit _ => true
  | _ => false
  end.

Definition span_started (ev : event) : bool :=
  match ev with
  | EvCall (start_as_current_span _ _) (Returns _) => true
  | _ => false
  end.

Definition span_ended (ev : event) : bool :=
  match ev with
  | EvCall (span_exit _ _) _ => true
  | _ => false
  end.

(** The status of the response [client.post] returned. *)
Definition client_response (ev : event) : option Z :=
  match ev with
  | EvCall c o =>
      match c in call R return outcome R -> option Z with
      | client_post _ _ _ =>
          fun o => match o with Returns resp => Some (status_code resp) | Raises _ => None end
      | _ => fun _ => None
      end o
  | _ => None
  end.

(** The three lines [main] prints after the last probe. *)
Definition summary_lines (rs : list CheckResult) : list str :=
  [ [newline] ++ str_mul (lit "=") 50;
    lit "Results: " ++ str_of_int (sum_bools (List.map passed rs)) ++ lit "/" ++
      str_of_int (Z.of_nat (length rs)) ++ lit " passed";
    if forallb passed rs
    then lit "Laminar is fully operational!"
    else lit "Some checks failed " ++ [em_dash] ++ lit " see details above." ].

(** Everything a run prints on the standard output when no [print] fails,
    given the checks it recorded: the banner, one line per check with the
    export heading after the third, and the summary when all six were
    made. *)
Definition transcript (environ : gmap (list N) (list N)) (rs : list CheckResult) : list str :=
  stdout_lines (banner environ) ++
  List.map check_line (take 3 rs) ++
  [[newline] ++ lit "Trace Export:"] ++
  List.map check_line (drop 3 rs) ++
  (if (length rs =? 6)%nat then summary_lines rs else []).

(** ** What a run comes to *)

(** A run of [main] with credential [key], from its completion [c] and its
    log [tr] (most recent event first).  The first two lines of the banner
    are always printed, and when the three URLs can be printed the whole
    banner is, followed by the request of the first probe.  The credential
    is used as [key] everywhere.  [main] returns, exits with 1 or lets an
    exception through, and it returns exactly when six checks are on
    record and all of them passed. *)
Definition main_summary (world : World) (environ : gmap (list N) (list N)) (key : str)
    (c : completion unit) (tr : list event) : Prop :=
  (exists rest,
      rev tr = EvPrint stdout ([newline] ++ lit "Laminar Service Verification") ::
               EvPrint stdout (str_mul (lit "=") 50) :: rest) /\
  (printable world (BASE_URL environ) = true ->
   printable world (OTLP_HTTP_URL environ) = true ->
   printable world (OTLP_GRPC_URL environ) = true ->
   exists o rest,
      rev tr = banner environ ++
               EvCall (httpx_get (BASE_URL environ ++ lit "/sign-in") 15 true) o :: rest) /\
  Forall (eq (key_headers key)) (authorizations tr) /\
  Forall (eq key) (sdk_keys tr) /\
  (c = Normal tt \/ c = Exited 1 \/ exists exc, c = Raised exc) /\
  (c = Normal tt <->
   length (results_of tr) = 6%nat /\ forallb passed (results_of tr) = true).

(** The same run when no [print] failed: the checks on record are the six
    of [check_labels], or the first four or five of them when an exporter
    could not be built; the standard output is the transcript of these
    checks; and the run ends by the conjunction of the six, or with the
    exception of the constructor. *)
Definition main_shape (environ : gmap (list N) (list N)) (key : str)
    (c : completion unit) (tr : list event) : Prop :=
  existsb print_failed tr = false ->
  stdout_lines (rev tr) = transcript environ (results_of (rev tr)) /\
  ((existsb exporter_rejected tr = false /\
    List.map label (results_of (rev tr)) = check_labels /\
    c = (if forallb passed (results_of (rev tr)) then Normal tt else Exited 1)) \/
   (existsb exporter_rejected tr = true /\
    (exists exc, c = Raised exc) /\
    (List.map label (results_of (rev tr)) = take 4 check_labels \/
     List.map label (results_of (rev tr)) = take 5 check_labels))).

(** What a run requests and builds, whatever fails: the three requests of
    the connectivity probes in their order, up to the point the run got
    to, and the two exporters likewise. *)
Definition main_traffic (environ : gmap (list N) (list N)) (key : str)
    (tr : list event) : Prop :=
  (exists k, requests (rev tr) =
             take k [ui_request environ; otlp_http_request environ;
                     otlp_grpc_request environ]) /\
  (exists k, exporters (rev tr) =
             take k [grpc_exporter environ key; http_exporter environ key]) /\
  (existsb print_failed tr = false ->
   (requests (rev tr) =
      [ui_request environ; otlp_http_request environ; otlp_grpc_request environ] \/
    requests (rev tr) = [ui_request environ; otlp_http_request environ]) /\
   (exporters (rev tr) = [grpc_exporter environ key; http_exporter environ key] \/
    exporters (rev tr) = [grpc_exporter environ key])).

(** ** The OpenTelemetry API of the direct examples *)

(** Examples 03 and 04 drive the OpenTelemetry SDK themselves.  They make
    the constructor calls of the verifier and, besides, calls of the global
    tracing API. *)
Module Otel.

(** The attribute values the examples set. *)
Inductive attr : Type :=
| AStr (s : str)
| AInt (n : Z)
| AStrs (l : list str).

(** What [trace.get_tracer_provider()] hands back: an SDK [TracerProvider]
    (known by its resource) or some other provider object. *)
Inductive provider_ref : Type :=
| SdkProvider (res : resource)
| OtherProvider.

Inductive ocall : Type -> Type :=
| sdk {R : Type} (c : call R) : ocall R
| set_tracer_provider (res : resource) : ocall unit
| trace_get_tracer (name : str) : ocall unit
| tracer_start_span (tracer name : str) : ocall unit
| span_set_attribute (span key : str) (value : attr) : ocall unit
| span_end (span : str) : ocall unit
| get_tracer_provider : ocall provider_ref
| provider_force_flush (res : resource) : ocall bool.

(** As in the verifier: [OPrintFailed] is a [print] to the standard output
    that raised. *)
Inductive oevent : Type :=
| OCall {R : Type} (c : ocall R) (o : outcome R)
| OPrint (f : stream) (text : str)
| OPrintFailed (text : str) (exc : exn).

Record OWorld : Type := {
  oanswers :> list oevent -> forall R : Type, ocall R -> outcome R;
  oconsole :> Console
}.

(** The monad of the verifier, over these events. *)
Definition OM (A : Type) : Type := list oevent -> completion A * list oevent.

Definition ret {A} (a : A) : OM A := fun tr => (Normal a, tr).

Definition bind {A B} (m : OM A) (k : A -> OM B) : OM B :=
  fun tr =>
    match m tr with
    | (Normal a, tr') => k a tr'
    | (Raised exc, tr') => (Raised exc, tr')
    | (Exited n, tr') => (Exited n, tr')
    end.

Declare Scope otel_scope.
Notation "'let*' x ':=' m 'in' k" := (bind m (fun x => k))
  (at level 10, x name, m at level 100, k at level 200) : otel_scope.
Notation "m '>>' k" := (bind m (fun _ => k))
  (at level 100, k at level 200, right associativity) : otel_scope.
Local Open Scope otel_scope.

Definition raise {A} (exc : exn) : OM A := fun tr => (Raised exc, tr).

Definition sys_exit {A} (n : Z) : OM A := fun tr => (Exited n, tr).

(** [print(text)], as in the verifier. *)
Definition print (con : Console) (text : str) : OM unit :=
  fun tr =>
    if printable con text
    then (Normal tt, OPrint stdout text :: tr)
    else (Raised (encode_error con text), OPrintFailed text (encode_error con text) :: tr).

Definition ext (world : OWorld) {R} (c : ocall R) : OM R :=
  fun tr =>
    match oanswers world tr R c with
    | Returns r => (Normal r, OCall c (Returns r) :: tr)
    | Raises exc => (Raised exc, OCall c (Raises exc) :: tr)
    end.

(** [with <enter>: body], as in the verifier. *)
Definition with_ {A} (enter leave : OM unit) (body : OM A) : OM A :=
  enter >>
  fun tr =>
    match body tr with
    | (Normal a, tr') => (leave >> ret a) tr'
    | (Raised exc, tr') => (leave >> raise exc) tr'
    | (Exited n, tr') => (leave >> sys_exit n) tr'
    end.

(** [with tracer.start_as_current_span(name) as span: body] *)
Definition with_span (world : OWorld) {A} (tracer name : str) (body : OM A) : OM A :=
  with_ (ext world (tracer_start_span tracer name)) (ext world (span_end name)) body.

(** What [get_api_key] prints, as events of this log. *)
Definition printed (ev : event) : option oevent :=
  match ev with
  | EvPrint f text => Some (OPrint f text)
  | _ => None
  end.

(** [get_api_key()]: it makes no call, so it runs as in the verifier. *)
Definition get_api_key (environ : gmap (list N) (list N)) : OM str :=
  fun tr =>
    let '(c, evs) := get_api_key environ [] in
    (c, omap printed evs ++ tr).

End Otel.

(** ** examples/03_otlp_grpc_direct.py *)

Module Example03.
Import Otel.
Local Open Scope otel_scope.

Section Script.

Variable world : OWorld.
Variable environ : gmap (list N) (list N).

(** The tracer is known by the name it was asked for. *)
Definition setup_tracer (api_key service_name : str) : OM str :=
  let res : resource := [(lit "service.name", service_name)] in
  ext world (sdk (Resource_create res)) >>
  let exporter := GrpcExporter (OTLP_GRPC_URL environ)
                    [(lit "authorization", lit "Bearer " ++ api_key)] in
  ext world (sdk (new_exporter exporter)) >>
  ext world (sdk (TracerProvider res)) >>
  ext world (sdk (BatchSpanProcessor exporter)) >>
  ext world (sdk (add_span_processor res exporter)) >>
  ext world (set_tracer_provider res) >>
  ext world (trace_get_tracer service_name) >>
  ret service_name.

Definition main : OM unit :=
  let* api_key := get_api_key environ in
  let* tracer := setup_tracer api_key (lit "laminar-grpc-example") in
  print world (lit "OTLP/gRPC endpoint " ++ [right_arrow] ++ lit " " ++ OTLP_GRPC_URL environ) >>
  print world (lit "Sending traced operations...") >>
  with_span world tracer (lit "agent-workflow")
    (ext world (span_set_attribute (lit "agent-workflow") (lit "agent.name")
                  (AStr (lit "compliance-checker"))) >>
     ext world (span_set_attribute (lit "agent-workflow") (lit "agent.version")
                  (AStr (lit "1.0.0"))) >>
     with_span world tracer (lit "retrieve-documents")
       (ext world (span_set_attribute (lit "retrieve-documents") (lit "query")
                     (AStr (lit "regulation updates 2026"))) >>
        ext world (span_set_attribute (lit "retrieve-documents") (lit "doc.count") (AInt 5)) >>
        ext world (sdk (time_sleep (Qmake 1 10)))) >>
     with_span world tracer (lit "analyze-compliance")
       (ext world (span_set_attribute (lit "analyze-compliance") (lit "model")
                     (AStr (lit "gpt-4o"))) >>
        ext world (span_set_attribute (lit "analyze-compliance") (lit "tokens.input")
                     (AInt 1500)) >>
        ext world (span_set_attribute (lit "analyze-compliance") (lit "tokens.output")
                     (AInt 320)) >>
        ext world (sdk (time_sleep (Qmake 5 100)))) >>
     ext world (span_set_attribute (lit "agent-workflow") (lit "result.status")
                  (AStr (lit "compliant")))) >>
  let* provider := ext world get_tracer_provider in
  match provider with
  | SdkProvider res => ext world (provider_force_flush res) >> ret tt
  | OtherProvider => ret tt
  end >>
  print world (lit "Done! Check your traces at: https://laminar.orbitronai.com").

End Script.

(** [python examples/03_otlp_grpc_direct.py] *)
Definition run (world : OWorld) (environ : gmap (list N) (list N)) : Z * list oevent :=
  let '(c, tr) := main world environ [] in (exit_status c, rev tr).

End Example03.

(** ** examples/04_otlp_http_direct.py *)

Module Example04.
Import Otel.
Local Open Scope otel_scope.

Section Script.

Variable world : OWorld.
Variable environ : gmap (list N) (list N).

Definition setup_tracer (api_key service_name : str) : OM str :=
  let res : resource := [(lit "service.name", service_name)] in
  ext world (sdk (Resource_create res)) >>
  let exporter := HttpExporter (OTLP_HTTP_URL environ ++ lit "/v1/traces")
                    [(lit "authorization", lit "Bearer " ++ api_key)] in
  ext world (sdk (new_exporter exporter)) >>
  ext world (sdk (TracerProvider res)) >>
  ext world (sdk (BatchSpanProcessor exporter)) >>
  ext world (sdk (add_span_processor res exporter)) >>
  ext world (set_tracer_provider res) >>
  ext world (trace_get_tracer service_name) >>
  ret service_name.

Definition main : OM unit :=
  let* api_key := get_api_key environ in
  let* tracer := setup_tracer api_key (lit "laminar-http-example") in
  print world (lit "OTLP/HTTP endpoint " ++ [right_arrow] ++ lit " " ++
         OTLP_HTTP_URL environ ++ lit "/v1/traces") >>
  print world (lit "Sending traced operations...") >>
  with_span world tracer (lit "data-pipeline")
    (ext world (span_set_attribute (lit "data-pipeline") (lit "pipeline.name")
                  (AStr (lit "lead-enrichment"))) >>
     with_span world tracer (lit "extract")
       (ext world (span_set_attribute (lit "extract") (lit "source") (AStr (lit "crm-api"))) >>
        ext world (span_set_attribute (lit "extract") (lit "records") (AInt 150)) >>
        ext world (sdk (time_sleep (Qmake 8 100)))) >>
     with_span world tracer (lit "transform")
       (ext world (span_set_attribute (lit "transform") (lit "transformations")
                     (AStrs [lit "normalize"; lit "deduplicate"])) >>
        ext world (sdk (time_sleep (Qmake 5 100)))) >>
     with_span world tracer (lit "load")
       (ext world (span_set_attribute (lit "load") (lit "destination")
                     (AStr (lit "postgres"))) >>
        ext world (span_set_attribute (lit "load") (lit "records.written") (AInt 142)) >>
        ext world (sdk (time_sleep (Qmake 3 100))))) >>
  let* provider := ext world get_tracer_provider in
  match provider with
  | SdkProvider res => ext world (provider_force_flush res) >> ret tt
  | OtherProvider => ret tt
  end >>
  print world (lit "Done! Check your traces at: https://laminar.orbitronai.com").

End Script.

(** [python examples/04_otlp_http_direct.py] *)
Definition run (world : OWorld) (environ : gmap (list N) (list N)) : Z * list oevent :=
  let '(c, tr) := main world environ [] in (exit_status c, rev tr).

End Example04.

(** ** Reading the log of a direct example *)

Definition oraised (ev : Otel.oevent) : bool :=
  match ev with
  | Otel.OCall _ (Raises _) => true
  | _ => false
  end.

Definition ostdout_line (ev : Otel.oevent) : option str :=
  match ev with
  | Otel.OPrint stdout text => Some text
  | _ => None
  end.

Definition is_ocall (ev : Otel.oevent) : bool :=
  match ev with
  | Otel.OCall _ _ => true
  | _ => false
  end.

(** A flush of the provider was attempted. *)
Definition flush_attempted (ev : Otel.oevent) : bool :=
  match ev with
  | Otel.OCall (Otel.provider_force_flush _) _ => true
  | _ => false
  end.

(** The provider the global API handed back was an SDK one. *)
Definition sdk_provider_found (ev : Otel.oevent) : bool :=
  match ev with
  | Otel.OCall c o =>
      match c in Otel.ocall R return outcome R -> bool with
      | Otel.get_tracer_provider =>
          fun o => match o with Returns (Otel.SdkProvider _) => true | _ => false end
      | _ => fun _ => false
      end o
  | _ => false
  end.

(** The exporter an example built. *)
Definition oexporter_of (ev : Otel.oevent) : option exporter :=
  match ev with
  | Otel.OCall (Otel.sdk (new_exporter e)) _ => Some e
  | _ => None
  end.

(** The spans still open after a log (in the order things happened),
    innermost first: a span is opened when [start_as_current_span]
    returned, and closing must name the innermost open span.  [None] when a
    span is closed that is not the innermost open one. *)
Fixpoint open_spans (log : list Otel.oevent) (stack : list str) : option (list str) :=
  match log with
  | [] => Some stack
  | Otel.OCall (Otel.tracer_start_span _ name) (Returns _) :: log' =>
      open_spans log' (name :: stack)
  | Otel.OCall (Otel.span_end name) _ :: log' =>
      match stack with
      | top :: stack' => if bool_decide (top = name) then open_spans log' stack' else None
      | [] => None
      end
  | _ :: log' => open_spans log' stack
  end.

(** A [print] to the standard output raised. *)
Definition oprint_failed (ev : Otel.oevent) : bool :=
  match ev with
  | Otel.OPrintFailed _ _ => true
  | _ => false
  end.





Definition ospan_ended (ev : Otel.oevent) : option str :=
  match ev with
  | Otel.OCall (Otel.span_end name) _ => Some name
  | _ => None
  end.

Definition oshutdown (ev : Otel.oevent) : bool :=
  match ev with
  | Otel.OCall (Otel.sdk (shutdown _)) _ => true
  | _ => false
  end.

(** What holds of the log and exit status of a direct example whose
    credential resolved to [key]: [exp] is its exporter, [service] its
    service name, [spans] its spans in the order they end.  Nothing is
    caught: the status is 1 as soon as a call raised or a [print]
    failed. *)
Definition direct_example_facts (exp : exporter) (service : str) (spans : list str)
    (status : Z) (log : list Otel.oevent) : Prop :=
  status = (if existsb oraised log || existsb oprint_failed log then 1 else 0) /\
  (last (omap ostdout_line log) =
     Some (lit "Done! Check your traces at: https://laminar.orbitronai.com") <->
   existsb oraised log || existsb oprint_failed log = false) /\
  open_spans log [] = Some [] /\
  existsb flush_attempted log = existsb sdk_provider_found log /\
  (existsb sdk_provider_found log = true ->
   omap ospan_ended log = spans /\
   forallb (fun ev => negb (oraised ev) || flush_attempted ev) log = true) /\
  existsb oshutdown log = false /\
  (exists o rest,
      log = Otel.OCall (Otel.sdk (Resource_create [(lit "service.name", service)])) o :: rest) /\
  Forall (eq exp) (omap oexporter_of log).

(** ** examples/01_lmnr_sdk_basic.py *)

Module Example01.

(** The values the example keeps in its records.  The one float is kept as
    it is written in the source; nothing is computed with it. *)
Inductive value : Type :=
| VStr (s : str)
| VBool (b : bool)
| VFloat (literal : str).

(** A Python [dict] with [str] keys: the items in insertion order, no key
    twice. *)
Definition dict : Type := list (str * value).

(** [d[k]] when [k] is there *)
Fixpoint dict_get (k : str) (d : dict) : option value :=
  match d with
  | [] => None
  | (k', v) :: d' => if bool_decide (k' = k) then Some v else dict_get k d'
  end.

(** [d[k] = v]: a key that is there keeps its place, a new key goes last. *)
Fixpoint dict_set (k : str) (v : value) (d : dict) : dict :=
  match d with
  | [] => [(k, v)]
  | (k', v') :: d' =>
      if bool_decide (k' = k) then (k', v) :: d' else (k', v') :: dict_set k v d'
  end.

Section Script.

Variable world : World.
Variable environ : gmap (list N) (list N).

(** [f"{result}"] for a [dict]: Python's [repr], not modelled. *)
Variable format_dict : dict -> str.

(** A call of a function decorated with [@observe(name=...)], as in the
    verifier. *)
Definition observed {A} (name : str) (body : M A) : M A :=
  with_ (ext world (observe_enter name)) (ext world (observe_exit name)) body.

Definition fetch_user_data (user_id : str) : M dict :=
  observed (lit "fetch-user-data")
    (ext world (time_sleep (Qmake 1 10)) >>
     ret [ (lit "id", VStr user_id);
           (lit "name", VStr (lit "Alice"));
           (lit "email", VStr (lit "alice@orbitronai.com"));
           (lit "plan", VStr (lit "enterprise")) ]).

(** The record passed in is updated in place and handed back. *)
Definition enrich_profile (user : dict) : M dict :=
  observed (lit "enrich-profile")
    (ext world (time_sleep (Qmake 5 100)) >>
     let user := dict_set (lit "enriched") (VBool true) user in
     let user := dict_set (lit "risk_score") (VFloat (lit "0.12")) user in
     ret user).

Definition process_user_request (user_id : str) : M dict :=
  observed (lit "process-user-request")
    (let* user := fetch_user_data user_id in
     let* enriched := enrich_profile user in
     ret enriched).

Definition main : M unit :=
  let* api_key := get_api_key environ in
  ext world (Laminar_initialize api_key (BASE_URL environ)) >>
  print world (lit "Laminar initialized " ++ [right_arrow] ++ lit " " ++ BASE_URL environ) >>
  print world (lit "Sending traced request...") >>
  let* result := process_user_request (lit "user-42") in
  print world (lit "Result: " ++ format_dict result) >>
  print world (lit "Flushing traces...") >>
  ext world Laminar_flush >>
  print world (lit "Done! Check your traces at: https://laminar.orbitronai.com").

(** The module: [lmnr] is imported and the three decorators are applied
    when it is loaded, then [main] runs. *)
Definition script : M unit :=
  ext world import_lmnr >>
  ext world (observe (lit "fetch-user-data")) >>
  ext world (observe (lit "enrich-profile")) >>
  ext world (observe (lit "process-user-request")) >>
  main.

(** What the script prints when nothing goes wrong. *)
Definition transcript : list str :=
  [ lit "Laminar initialized " ++ [right_arrow] ++ lit " " ++ BASE_URL environ;
    lit "Sending traced request...";
    lit "Result: " ++
      format_dict [ (lit "id", VStr (lit "user-42"));
                    (lit "name", VStr (lit "Alice"));
                    (lit "email", VStr (lit "alice@orbitronai.com"));
                    (lit "plan", VStr (lit "enterprise"));
                    (lit "enriched", VBool true);
                    (lit "risk_score", VFloat (lit "0.12")) ];
    lit "Flushing traces...";
    lit "Done! Check your traces at: https://laminar.orbitronai.com" ].

End Script.

(** [python examples/01_lmnr_sdk_basic.py] *)
Definition run (world : World) (environ : gmap (list N) (list N))
    (format_dict : dict -> str) : Z * list event :=
  let '(c, tr) := script world environ format_dict [] in (exit_status c, rev tr).

End Example01.



(** A record that was enriched before, and what [enrich_profile] makes of
    it. *)
Definition sample_user : Example01.dict :=
  [(lit "enriched", Example01.VBool false); (lit "id", Example01.VStr (lit "u-7"))].
Definition sample_enriched : Example01.dict :=
  [(lit "enriched", Example01.VBool true); (lit "id", Example01.VStr (lit "u-7"));
   (lit "risk_score", Example01.VFloat (lit "0.12"))].

(** * The model at work *)

Example strip_padded : strip (lit "  ab c " ++ [newline]) = lit "ab c".
Proof. reflexivity. Qed.

Example str_of_int_digits :
  str_of_int 404 = lit "404" /\ str_of_int 0 = lit "0" /\ str_of_int (-7) = lit "-7".
Proof. repeat split; reflexivity. Qed.

Example url_override :
  BASE_URL (<[lit "LAMINAR_BASE_URL" := lit "http://localhost:8000"]> ∅) =
  lit "http://localhost:8000".
Proof. vm_compute. reflexivity. Qed.

(** All six probes succeed: "6/6 passed", status 0. *)
Example healthy_run :
  fst (run healthy env_padded_key) = 0 /\
  last (stdout_lines (snd (run healthy env_padded_key))) =
    Some (lit "Laminar is fully operational!") /\
  In (lit "Results: 6/6 passed") (stdout_lines (snd (run healthy env_padded_key))).
Proof. vm_compute. repeat split. do 15 right. left. reflexivity. Qed.

(** The UI refuses the connection, the rest succeeds: "5/6 passed", the UI
    line is a FAIL with the error text, status 1. *)
Example ui_refused_run :
  fst (run ui_refuses env_padded_key) = 1 /\
  In (lit "Results: 5/6 passed") (stdout_lines (snd (run ui_refuses env_padded_key))) /\
  In (lit "  [FAIL] UI reachable " ++ [em_dash] ++ lit " [Errno 111] Connection refused")
     (stdout_lines (snd (run ui_refuses env_padded_key))).
Proof.
vm_compute. split; [reflexivity|]. split.
- do 15 right. left. reflexivity.
- do 7 right. left. reflexivity.
Qed.

(** No credential: nothing but the remediation message, status 1. *)
Example blank_key_run :
  run healthy env_blank_key = (1, [EvPrint stderr remediation]) /\
  run healthy ∅ = (1, [EvPrint stderr remediation]).
Proof. vm_compute. split; reflexivity. Qed.

(** The same service on an ASCII standard output: the first check is
    recorded as passed, its line cannot be printed, the handler records it
    as failed and cannot print either; the run ends there with status 1,
    though no call raised. *)
Example ascii_stdout_run :
  fst (run healthy_ascii env_padded_key) = 1 /\
  List.map (fun r => (label r, passed r)) (results_of (snd (run healthy_ascii env_padded_key))) =
    [(lit "UI reachable", true); (lit "UI reachable", false)] /\
  existsb raised (snd (run healthy_ascii env_padded_key)) = false /\
  stdout_lines (snd (run healthy_ascii env_padded_key)) =
    stdout_lines (banner env_padded_key).
Proof. vm_compute. repeat split. Qed.

(** The backend is down at the flush and the standard output is ASCII: the
    gRPC export check is recorded as failed, its line cannot be printed,
    and the encoding error leaves the probe. *)
Example failed_export_on_ascii_stdout :
  fst (check_grpc_export flush_raises_ascii env_padded_key (lit "k-123") []) =
    Raised (Exception
              (lit "'ascii' codec can't encode character: ordinal not in range(128)")) /\
  List.map passed
    (results_of (snd (check_grpc_export flush_raises_ascii env_padded_key (lit "k-123") []))) =
    [false] /\
  stdout_lines (snd (check_grpc_export flush_raises_ascii env_padded_key (lit "k-123") [])) = [].
Proof. vm_compute. repeat split. Qed.

(** * Strings *)

(** ** Stripping *)

Lemma lstrip_split (s : str) :
  exists ws, s = ws ++ lstrip s /\ forallb isspace ws = true.
Proof.
  induction s as [|c s IH]; simpl.
  - exists []. split; reflexivity.
  - destruct (isspace c) eqn:Hc.
    + destruct IH as (ws & Heq & Hws). exists (c :: ws). simpl.
      rewrite Hc, Hws. split; [f_equal; exact Heq | reflexivity].
    + exists []. split; reflexivity.
Qed.

Lemma lstrip_head (s : str) (c : N) : head (lstrip s) = Some c -> isspace c = false.
Proof.
  induction s as [|d s IH]; simpl; [discriminate|].
  destruct (isspace d) eqn:Hd; [exact IH|].
  simpl. intros [= <-]. exact Hd.
Qed.

Lemma lstrip_nil_iff (s : str) : lstrip s = [] <-> forallb isspace s = true.
Proof.
  induction s as [|c s IH]; simpl; [tauto|].
  destruct (isspace c); simpl; [exact IH|].
  split; discriminate.
Qed.

Lemma forallb_rev {A} (f : A -> bool) (l : list A) : forallb f (rev l) = forallb f l.
Proof.
  induction l as [|x l IH]; simpl; [reflexivity|].
  rewrite forallb_app, IH. simpl. rewrite andb_true_r. apply andb_comm.
Qed.

Lemma existsb_rev {A} (f : A -> bool) (l : list A) : existsb f (rev l) = existsb f l.
Proof.
  induction l as [|x l IH]; simpl; [reflexivity|].
  rewrite existsb_app, IH. simpl. rewrite orb_false_r. apply orb_comm.
Qed.

Lemma rstrip_split (s : str) :
  exists ws, s = rstrip s ++ ws /\ forallb isspace ws = true.
Proof.
  destruct (lstrip_split (rev s)) as (ws & Heq & Hws).
  exists (rev ws). split; [|rewrite forallb_rev; exact Hws].
  unfold rstrip. rewrite <- rev_app_distr, <- Heq, rev_involutive. reflexivity.
Qed.

Lemma last_rev {A} (l : list A) : last (rev l) = head l.
Proof. destruct l as [|x l]; simpl; [reflexivity|]. apply last_snoc. Qed.

Lemma rstrip_last (s : str) (c : N) : last (rstrip s) = Some c -> isspace c = false.
Proof. unfold rstrip. rewrite last_rev. apply lstrip_head. Qed.

Lemma rstrip_head (s : str) (c : N) :
  head (rstrip s) = Some c -> head s = Some c.
Proof.
  destruct (rstrip_split s) as (ws & Heq & _).
  destruct (rstrip s) as [|d t]; simpl; [discriminate|].
  intros [= <-]. rewrite Heq. reflexivity.
Qed.

Lemma strip_head (s : str) (c : N) : head (strip s) = Some c -> isspace c = false.
Proof. intros H. apply rstrip_head in H. exact (lstrip_head _ _ H). Qed.

Lemma strip_last (s : str) (c : N) : last (strip s) = Some c -> isspace c = false.
Proof. apply rstrip_last. Qed.

Lemma strip_nil_iff (s : str) : strip s = [] <-> forallb isspace s = true.
Proof.
  rewrite <- lstrip_nil_iff. unfold strip. split.
  - intros H. destruct (rstrip_split (lstrip s)) as (ws & Heq & Hws).
    rewrite H in Heq. simpl in Heq.
    destruct (lstrip s) as [|c t] eqn:E; [reflexivity|].
    assert (Hc : isspace c = false) by (apply (lstrip_head s); rewrite E; reflexivity).
    subst ws. simpl in Hws. rewrite Hc in Hws. discriminate.
  - intros ->. reflexivity.
Qed.


(** ** What the standard output can take *)

Lemma printable_app (con : Console) (a b : str) :
  printable con (a ++ b) = printable con a && printable con b.
Proof. apply forallb_app. Qed.

Lemma printable_digits (con : Console) (d : Decimal.uint) :
  printable con (lit (NilEmpty.string_of_uint d)) = true.
Proof. induction d; simpl; try reflexivity; exact IHd. Qed.

(** A number is written in ASCII. *)
Lemma printable_str_of_int (con : Console) (n : Z) :
  printable con (str_of_int n) = true.
Proof.
unfold str_of_int, NilZero.string_of_int.
destruct (Z.to_int n) as [d|d]; unfold NilZero.string_of_uint.
- destruct d; try reflexivity; apply (printable_digits con).
- destruct d; try reflexivity; apply (printable_digits con).
Qed.

(** The line of a check can be printed when its label can and, if it has a
    detail, the dash and the detail can. *)
Lemma printable_check_line (con : Console) (r : CheckResult) :
  printable con (check_line r) =
  printable con (label r) &&
  match detail r with
  | [] => true
  | _ :: _ => encodes con em_dash && printable con (detail r)
  end.
Proof.
unfold check_line. rewrite !printable_app.
change (printable con (lit "  [")) with true.
change (printable con (lit "] ")) with true.
destruct (passed r);
  [change (printable con (lit "PASS")) with true
  |change (printable con (lit "FAIL")) with true];
  cbn [andb]; f_equal.
all: destruct (detail r) as [|c d]; [reflexivity|].
all: rewrite !printable_app; change (printable con (lit " ")) with true.
all: cbn [andb]; f_equal; cbn; apply andb_true_r.
Qed.

(** * Logs *)

#[local] Arguments lit : simpl never.
#[local] Arguments str_of_int : simpl never.
#[local] Arguments str_mul : simpl never.
#[local] Arguments check_line : simpl never.
#[local] Arguments printable : simpl never.

Lemma omap_rev {A B} (f : A -> option B) (l : list A) :
  omap f (rev l) = rev (omap f l).
Proof.
induction l as [|x l IH]; simpl; [reflexivity|].
rewrite omap_app, IH. simpl. destruct (f x); simpl; [reflexivity|].
apply app_nil_r.
Qed.

(** The authorization headers of a log are those of its exporters. *)
Lemma authorizations_exporters (log : list event) :
  authorizations log = List.map exporter_headers (exporters log).
Proof.
induction log as [|ev log IH]; [reflexivity|].
destruct ev as [R c o| | |]; try exact IH.
destruct c; try exact IH.
cbn. unfold authorizations, exporters in IH. rewrite IH. reflexivity.
Qed.

(** * [_check] *)

(** [_check] records its [CheckResult], then prints its line: it returns
    [ok] when the line can be printed and raises otherwise. *)
Lemma check_run (world : World) (lbl : str) (ok : bool) (d : str) (tr : list event) :
  _check world lbl ok d tr =
  let r := {| label := lbl; passed := ok; detail := d |} in
  if printable world (check_line r)
  then (Normal ok, EvPrint stdout (check_line r) :: EvCheck r :: tr)
  else (Raised (encode_error world (check_line r)),
        EvPrintFailed (check_line r) (encode_error world (check_line r)) :: EvCheck r :: tr).
Proof.
unfold _check, bind, emit, print, ret, check_line. cbn [label passed detail].
destruct (printable world _); reflexivity.
Qed.

(** The line of a check without detail is printed whenever its label can
    be. *)
Lemma plain_line_printable (world : World) (lbl : str) (ok : bool) :
  printable world lbl = true ->
  printable world (check_line {| label := lbl; passed := ok; detail := [] |}) = true.
Proof.
intros H. rewrite printable_check_line. cbn [label detail]. rewrite H. reflexivity.
Qed.

(** How a probe that returned [b] stands with its [CheckResult]s. *)
Lemma probe_end_normal (lbl : str) (b : bool) (new : list event) :
  probe_end lbl (Normal b) new ->
  forallb passed (results_of new) = b /\
  (b = true -> exists r, results_of new = [r]) /\
  (existsb print_failed new = false ->
   exists r, results_of new = [r] /\ label r = lbl /\ passed r = b /\
             stdout_lines new = [check_line r]).
Proof.
intros [Hlbl [(Hpf & r & Hr & Hp & Hout) | (Hpf & -> & Hall)]].
- rewrite Hr in *. cbn. rewrite Hp, andb_true_r.
  split; [reflexivity|]. split; [eauto|]. intros _. exists r.
  inversion Hlbl; subst. auto.
- split; [exact Hall|]. split; [discriminate|]. congruence.
Qed.

Lemma probe_end_raised (lbl : str) (exc : exn) (new : list event) :
  probe_end lbl (Raised exc) new ->
  existsb print_failed new = true /\ forallb passed (results_of new) = false.
Proof. intros [_ H]. exact H. Qed.

Lemma export_end_probe_end (world : World) (lbl : str) (c : completion bool)
    (new : list event) (r : CheckResult) :
  export_end world lbl c new r -> probe_end lbl c new.
Proof.
intros (Hr & Hl & [(Hpf & -> & Hout) | (Hpf & _ & Hp & _ & -> & _)]);
  (split; [rewrite Hr; repeat constructor; exact Hl|]).
- left. split; [exact Hpf|]. exists r. auto.
- split; [exact Hpf|]. rewrite Hr. cbn. rewrite Hp. reflexivity.
Qed.

(** * The probes, one by one *)

Section Probes.

Variable world : World.
Variable environ : gmap (list N) (list N).

#[local] Arguments _check : simpl never.

(** Answer the next pending call of the goal both ways. *)
Ltac answer_call :=
  match goal with
  | |- context [answers world ?t ?R ?c] =>
      let o := fresh "o" in
      destruct (answers world t R c) as [o|o] eqn:?; try destruct o; cbn
  end.

(** Let the next pending [_check] print its line, or fail to: the line of
    a check without detail under a printable label is always printed. *)
Ltac check_prints :=
  rewrite check_run; cbv zeta;
  match goal with
  | |- context [printable (console world) (check_line ?r)] =>
      first
        [ change (printable world (check_line r)) with true
        | rewrite (plain_line_printable world _ _ ltac:(eassumption))
        | destruct (printable world (check_line r)) eqn:? ]
  end; cbn.

Ltac run_probe :=
  intros; cbv beta delta [check_ui_reachable check_otlp_http_reachable
    check_otlp_grpc_reachable check_sdk_export _export_and_check _dummy_op
    try_except with_ bind ret raise sys_exit emit ext]; cbn;
  repeat first [answer_call | check_prints].

Ltac prefix_of l tr :=
  lazymatch l with
  | tr => constr:(@nil event)
  | ?x :: ?l' => let p := prefix_of l' tr in constr:(x :: p)
  end.

(** The first [CheckResult] a log (most recent event first) recorded. *)
Ltac first_check_in l :=
  match l with
  | _ :: ?l' => first_check_in l'
  | EvCheck ?r :: _ => r
  end.

(** Name what a finished probe added to the log. *)
Ltac show_end :=
  lazymatch goal with
  | |- exists c new, (?c0, ?l) = (c, new ++ ?tr) /\ _ =>
      let new := prefix_of l tr in
      exists c0, new; split; [reflexivity|]
  | |- exists c new r, (?c0, ?l) = (c, new ++ ?tr) /\ _ =>
      let new := prefix_of l tr in
      let r := first_check_in l in
      exists c0, new, r; split; [reflexivity|]
  end.

Ltac end_of_probe :=
  unfold probe_end; cbn;
  (split; [repeat constructor|]);
  first
    [ left; split; [reflexivity|]; eexists; repeat split; reflexivity
    | right; repeat split; reflexivity
    | split; reflexivity ].

Ltac end_of_export :=
  unfold export_end; cbn;
  do 2 (split; [reflexivity|]);
  first
    [ left; repeat split; reflexivity
    | right; repeat split; solve [reflexivity | assumption] ].

Lemma ui_probe (key : str) (tr : list event) :
  exists c new,
    check_ui_reachable world environ tr = (c, new ++ tr) /\
    segment (lit "UI reachable") [ui_request environ] [] key c new /\
    exists o after,
      new = after ++ [EvCall (httpx_get (BASE_URL environ ++ lit "/sign-in") 15 true) o].
Proof.
run_probe; show_end.
all: split; [|first [eexists _, [_; _]; reflexivity | eexists _, [_; _; _; _]; reflexivity]].
all: unfold segment; repeat (split; [reflexivity || constructor|]); left; split; [reflexivity|].
all: end_of_probe.
Qed.

Lemma otlp_http_probe (key : str) (tr : list event) :
  exists c new,
    check_otlp_http_reachable world environ tr = (c, new ++ tr) /\
    segment (lit "OTLP/HTTP endpoint") [otlp_http_request environ] [] key c new.
Proof.
run_probe; show_end.
all: unfold segment; repeat (split; [reflexivity || constructor|]); left; split; [reflexivity|].
all: end_of_probe.
Qed.

(** [check_otlp_grpc_reachable], whatever the world answers to its three
    calls and whatever can be printed. *)
Lemma otlp_grpc_probe (key : str) (tr : list event) :
  exists c new r,
    check_otlp_grpc_reachable world environ tr = (c, new ++ tr) /\
    segment (lit "OTLP/gRPC endpoint (HTTP/2 :443)")
      (if existsb client_opened new then [otlp_grpc_request environ] else []) [] key c new /\
    head (results_of (rev new)) = Some r /\
    label r = lit "OTLP/gRPC endpoint (HTTP/2 :443)" /\
    (passed r = true <-> existsb raised new = false) /\
    (forall status, omap client_response new = [status] -> existsb raised new = false ->
       detail r = lit "HTTP " ++ str_of_int status) /\
    (forall exc, head (omap raised_exc new) = Some exc -> detail r = str_exc exc) /\
    existsb client_closed new = existsb client_opened new /\
    (if printable world (check_line r)
     then c = Normal (passed r) /\ results_of new = [r] /\
          stdout_lines new = [check_line r]
     else c <> Normal true /\ existsb print_failed new = true).
Proof.
run_probe; show_end.
all: split; [unfold segment; repeat (split; [reflexivity || constructor|]); left;
             split; [reflexivity|]; end_of_probe|].
all: cbn; repeat split; try reflexivity; intros; try discriminate.
all: repeat match goal with
     | H : printable _ ?l = _ |- context [printable _ ?l] => rewrite H
     end; repeat split; try reflexivity; try discriminate.
all: match goal with
     | H : Some _ = Some _ |- _ => injection H as <-
     | H : [_] = [_] |- _ => injection H as <-
     end; reflexivity.
Qed.

(** [check_sdk_export], whatever the world answers to its seven calls. *)
Lemma sdk_probe (api_key : str) (tr : list event) :
  export_probe world (check_sdk_export world environ api_key)
    (lit "lmnr SDK trace export") tr
    (fun new r =>
       requests new = [] /\ exporters new = [] /\
       Forall (eq api_key) (sdk_keys new) /\
       existsb exporter_rejected new = false /\
       (passed r = true <-> existsb raised new = false) /\
       (forall exc, head (omap raised_exc new) = Some exc ->
          passed r = false /\ detail r = str_exc exc)).
Proof.
unfold export_probe. run_probe; show_end.
all: split; [end_of_export|].
all: cbn; repeat split; try reflexivity; intros; try discriminate;
  repeat constructor.
all: match goal with H : Some _ = Some _ |- _ => injection H as <- end; reflexivity.
Qed.

(** [_export_and_check] under a label that can be printed, whatever the
    world answers to its eleven calls. *)
Lemma export_and_check_probe (lbl : str) (e : exporter) (tr : list event) :
  printable world lbl = true ->
  export_probe world (_export_and_check world lbl e) lbl tr
    (fun new r =>
       requests new = [] /\ exporters new = [] /\ sdk_keys new = [] /\
       existsb exporter_rejected new = false /\
       (passed r = true <->
          omap flushed_flag new = [true] /\ existsb raised new = false) /\
       (forall exc, head (omap raised_exc new) = Some exc ->
          passed r = false /\ detail r = str_exc exc)).
Proof.
intros Hlbl. unfold export_probe. run_probe; show_end.
all: split; [end_of_export|].
all: cbn; repeat split; try reflexivity; intros; try discriminate;
  try intuition discriminate.
all: match goal with H : Some _ = Some _ |- _ => injection H as <- end; reflexivity.
Qed.

(** The calls of [_export_and_check], under any label. *)
Lemma export_and_check_calls (lbl : str) (e : exporter) (tr : list event) :
  exists c new,
    _export_and_check world lbl e tr = (c, new ++ tr) /\
    existsb is_shutdown new =
      match omap flushed_flag new with [] => false | _ :: _ => true end /\
    existsb span_ended new = existsb span_started new.
Proof. run_probe; show_end; split; reflexivity. Qed.

(** Building the exporter first, then [_export_and_check]. *)
Lemma direct_probe (lbl : str) (e : exporter) (key : str) (tr : list event) :
  printable world lbl = true ->
  exists c new,
    (ext world (new_exporter e) >> _export_and_check world lbl e) tr = (c, new ++ tr) /\
    segment lbl [] [e] key c new.
Proof.
intros Hlbl. unfold bind, ext.
destruct (answers world tr _ (new_exporter e)) as [[]|exc] eqn:Hw.
- destruct (export_and_check_probe lbl e (EvCall (new_exporter e) (Returns tt) :: tr) Hlbl)
    as (c & new & r & Heq & Hend & Hrq & Hex & Hs & Hrej & _).
  exists c, (new ++ [EvCall (new_exporter e) (Returns tt)]).
  rewrite Heq, <- app_assoc. split; [reflexivity|].
  apply export_end_probe_end in Hend. destruct Hend as [Hl Hend].
  unfold segment, probe_end, requests, exporters, sdk_keys, results_of, stdout_lines in *.
  rewrite !omap_app, !existsb_app, Hrq, Hex, Hs, Hrej. cbn.
  rewrite !app_nil_r, !orb_false_r.
  do 2 (split; [reflexivity|]). split; [constructor|].
  left. split; [reflexivity|]. split; [exact Hl | exact Hend].
- exists (Raised exc), [EvCall (new_exporter e) (Raises exc)].
  split; [reflexivity|]. unfold segment. cbn.
  do 2 (split; [reflexivity|]). split; [constructor|].
  right. repeat split. eauto.
Qed.

End Probes.
Lemma bind_print {B} (world : World) (s : str) (k : unit -> M B) (tr : list event) :
  bind (print world s) k tr =
  if printable world s
  then k tt (EvPrint stdout s :: tr)
  else (Raised (encode_error world s), EvPrintFailed s (encode_error world s) :: tr).
Proof. unfold bind, print. destruct (printable world s); reflexivity. Qed.

Lemma bind_run {A B} (m : M A) (k : A -> M B) (tr tr' : list event) (c : completion A) :
  m tr = (c, tr') ->
  bind m k tr =
  match c with
  | Normal a => k a tr'
  | Raised exc => (Raised exc, tr')
  | Exited n => (Exited n, tr')
  end.
Proof. intros H. unfold bind. rewrite H. destruct c; reflexivity. Qed.

(** No exporter, so none rejected. *)
Lemma no_exporter_rejected (new : list event) :
  exporters new = [] -> existsb exporter_rejected new = false.
Proof.
induction new as [|ev new IH]; [reflexivity|].
destruct ev as [R c o| | |]; try exact IH.
destruct c; try exact IH. discriminate.
Qed.

(** A probe that returned [b]. *)
Lemma segment_normal (lbl : str) (rqs : list (str * headers)) (exps : list exporter)
    (key : str) (b : bool) (new : list event) :
  segment lbl rqs exps key (Normal b) new ->
  existsb exporter_rejected new = false /\
  forallb passed (results_of new) = b /\
  (b = true -> length (results_of new) = 1%nat) /\
  (existsb print_failed new = false ->
   exists r, results_of new = [r] /\ label r = lbl /\ passed r = b /\
             stdout_lines new = [check_line r]).
Proof.
intros (_ & _ & _ & [(Hrej & Hend) | (_ & _ & _ & _ & exc & Hc)]); [|discriminate].
split; [exact Hrej|].
destruct (probe_end_normal _ _ _ Hend) as (Hall & Hone & Hline).
split; [exact Hall|]. split; [|exact Hline].
intros Hb. destruct (Hone Hb) as [r ->]. reflexivity.
Qed.

(** A probe that let an exception through: a [print] failed after a failed
    check, or the exporter could not be built. *)
Lemma segment_raised (lbl : str) (rqs : list (str * headers)) (exps : list exporter)
    (key : str) (exc : exn) (new : list event) :
  segment lbl rqs exps key (Raised exc) new ->
  (existsb exporter_rejected new = false /\ existsb print_failed new = true /\
   forallb passed (results_of new) = false) \/
  (exps <> [] /\ existsb exporter_rejected new = true /\ existsb print_failed new = false /\
   results_of new = [] /\ stdout_lines new = []).
Proof.
intros (_ & Hex & _ & [(Hrej & Hend) | (Hrej & Hpf & Hr & Hout & _)]).
- left. split; [exact Hrej|]. apply (probe_end_raised _ _ _ Hend).
- right. repeat split; try assumption.
  intros ->. rewrite (no_exporter_rejected _ Hex) in Hrej. discriminate.
Qed.

Lemma segment_exited (lbl : str) (rqs : list (str * headers)) (exps : list exporter)
    (key : str) (n : Z) (new : list event) :
  segment lbl rqs exps key (Exited n) new -> False.
Proof.
intros (_ & _ & _ & [(_ & _ & []) | (_ & _ & _ & _ & exc & Hc)]). discriminate.
Qed.


(** A log that grows keeps the events it opened with. *)
Lemma log_opens_cons (x : event) (l opening : list event) :
  (exists pre, l = pre ++ opening) -> exists pre, x :: l = pre ++ opening.
Proof. intros [pre ->]. exists (x :: pre). reflexivity. Qed.

Lemma log_opens_app (n l opening : list event) :
  (exists pre, l = pre ++ opening) -> exists pre, n ++ l = pre ++ opening.
Proof. intros [pre ->]. exists (n ++ pre). apply app_assoc. Qed.

Lemma log_opens_here (opening : list event) : exists pre, opening = pre ++ opening.
Proof. exists []. reflexivity. Qed.

Lemma log_opens_last (ev : event) (after opening : list event) :
  exists pre, (after ++ [ev]) ++ opening = pre ++ ev :: opening.
Proof. exists after. rewrite <- app_assoc. reflexivity. Qed.

Lemma log_opens_rev (l opening : list event) :
  (exists pre, l = pre ++ opening) -> exists rest, rev l = rev opening ++ rest.
Proof. intros [pre ->]. exists (rev pre). apply rev_app_distr. Qed.

Section Run.

Variable world : World.
Variable environ : gmap (list N) (list N).

#[local] Arguments check_ui_reachable : simpl never.
#[local] Arguments check_otlp_http_reachable : simpl never.
#[local] Arguments check_otlp_grpc_reachable : simpl never.
#[local] Arguments check_sdk_export : simpl never.
#[local] Arguments check_grpc_export : simpl never.
#[local] Arguments check_http_export : simpl never.

Lemma sdk_segment (key : str) (tr : list event) :
  exists c new,
    check_sdk_export world environ key tr = (c, new ++ tr) /\
    segment (lit "lmnr SDK trace export") [] [] key c new.
Proof.
destruct (sdk_probe world environ key tr)
  as (c & new & r & Heq & Hend & Hrq & Hex & Hs & Hrej & _).
exists c, new. split; [exact Heq|].
unfold segment. repeat (split; [assumption|]).
left. split; [exact Hrej|]. exact (export_end_probe_end _ _ _ _ _ Hend).
Qed.

Lemma otlp_grpc_segment (key : str) (tr : list event) :
  exists c new,
    check_otlp_grpc_reachable world environ tr = (c, new ++ tr) /\
    exists rqs,
      segment (lit "OTLP/gRPC endpoint (HTTP/2 :443)") rqs [] key c new /\
      (rqs = [otlp_grpc_request environ] \/ rqs = []).
Proof.
destruct (otlp_grpc_probe world environ key tr) as (c & new & r & Heq & Hseg & _).
exists c, new. split; [exact Heq|]. eexists. split; [exact Hseg|].
destruct (existsb client_opened new); auto.
Qed.

Lemma grpc_export_segment (key : str) (tr : list event) :
  exists c new,
    check_grpc_export world environ key tr = (c, new ++ tr) /\
    segment (lit "OTLP/gRPC trace export") [] [grpc_exporter environ key] key c new.
Proof. apply direct_probe. reflexivity. Qed.

Lemma http_export_segment (key : str) (tr : list event) :
  exists c new,
    check_http_export world environ key tr = (c, new ++ tr) /\
    segment (lit "OTLP/HTTP trace export") [] [http_exporter environ key] key c new.
Proof. apply direct_probe. reflexivity. Qed.

(** A print of [main] whose text is plain ASCII. *)
Ltac print_ascii :=
  rewrite bind_print;
  lazymatch goal with
  | |- context [if printable (console world) ?s then _ else _] =>
      change (printable world s) with true
  end; cbv beta iota.

(** A print of [main] that can fail. *)
Ltac print_any H :=
  rewrite bind_print;
  lazymatch goal with
  | |- context [if printable (console world) ?s then _ else _] =>
      destruct (printable world s) eqn:H
  end; cbv beta iota.

(** Run the next probe of [main]: [L] is its lemma, [S] takes what it
    says of the events [n] the probe added. *)
Tactic Notation "probe_with" constr(L) "as" ident(n) simple_intropattern(S)
    ident(b) ident(exc) :=
  lazymatch goal with
  | |- context [bind _ _ ?t] =>
      let c := fresh "c" in
      let E := fresh "E" in
      destruct (L t) as (c & n & E & S);
      rewrite (bind_run _ _ _ _ _ E); clear E;
      destruct c as [b|exc|?];
      [| |match goal with
          | H : segment _ _ _ _ (Exited _) _ |- _ =>
              destruct (segment_exited _ _ _ _ _ _ H)
          end];
      cbv beta iota
  end.

Lemma results_line_printable (p t : Z) :
  printable world (lit "Results: " ++ str_of_int p ++ lit "/" ++ str_of_int t ++
                   lit " passed") = true.
Proof. rewrite !printable_app, !printable_str_of_int. reflexivity. Qed.

(** [main] with credential [key], step by step: one goal for each way a
    run can end. *)
Ltac walk_main key :=
  unfold bind at 1; unfold ret at 1; cbv beta iota zeta;
  print_ascii; print_ascii;
  print_any ident:(Pui); [
  print_any ident:(Phttp); [
  print_any ident:(Pgrpc); [
  print_ascii; print_ascii;
  probe_with (ui_probe world environ key) as n1 [S1 F1] b1 exc1; [
  probe_with (otlp_http_probe world environ key) as n2 S2 b2 exc2; [
  probe_with (otlp_grpc_segment key) as n3 (rqs & S3 & Hrqs) b3 exc3; [
  print_ascii;
  probe_with (sdk_segment key) as n4 S4 b4 exc4; [
  probe_with (grpc_export_segment key) as n5 S5 b5 exc5; [
  probe_with (http_export_segment key) as n6 S6 b6 exc6; [
  print_ascii;
  rewrite bind_print, results_line_printable;
  match goal with
  | |- context [all_bools ?l] =>
      destruct (all_bools l) eqn:Hall; cbn [all_bools forallb app] in Hall
  end; [
    unfold print;
    lazymatch goal with
    | |- context [if printable (console world) ?s then _ else _] =>
        change (printable world s) with true
    end; cbv iota
  | print_any ident:(Plast); [unfold sys_exit|] ]
  | ] | ] | ] | ] | ] | ] | ] | ] | ];
  (eexists _, _; split; [reflexivity|]).

(** What the probes of a finished run say, in the terms of the readers. *)
Ltac digest :=
  repeat match goal with
  | S : segment _ _ _ _ (Normal _) _ |- _ =>
      let Rej := fresh "Rej" in let All := fresh "All" in
      let Len := fresh "Len" in let Line := fresh "Line" in
      let Q := fresh "Q" in let X := fresh "X" in let K := fresh "K" in
      pose proof (segment_normal _ _ _ _ _ _ S) as (Rej & All & Len & Line);
      destruct S as (Q & X & K & _)
  | S : segment _ _ _ _ (Raised _) _ |- _ =>
      let Rej := fresh "Rej" in let All := fresh "All" in
      let Pf := fresh "Pf" in let Res := fresh "Res" in
      let Out := fresh "Out" in let Ne := fresh "Ne" in
      let Q := fresh "Q" in let X := fresh "X" in let K := fresh "K" in
      pose proof (segment_raised _ _ _ _ _ _ S)
        as [(Rej & Pf & All) | (Ne & Rej & Pf & Res & Out)];
      destruct S as (Q & X & K & _);
      try (exfalso; apply Ne; reflexivity)
  end.

(** Push the readers of a log through its appends and known events. *)
Ltac read_log :=
  unfold results_of, requests, exporters, sdk_keys, stdout_lines in *;
  rewrite ?omap_rev, ?existsb_rev, ?forallb_rev;
  repeat first
    [ rewrite omap_app | rewrite existsb_app | rewrite forallb_app | rewrite length_app
    | progress (cbn [omap list_omap existsb forallb length as_check request_of
                     exporter_of sdk_key_of stdout_line exporter_rejected print_failed
                     orb andb app]) ];
  repeat match goal with
  | H : _ = _ |- _ => progress (rewrite H)
  end.

Ltac log_opens :=
  repeat first [apply log_opens_here | apply log_opens_last
               | apply log_opens_cons | apply log_opens_app].

(** In a run that did not return, the checks on record are not six passed
    ones. *)
Ltac all_passed_is_absurd :=
  split; [discriminate|]; intros [HL HA]; exfalso; revert HL; revert HA;
  read_log; cbn [forallb length andb];
  intros HA; try discriminate HA;
  repeat match goal with
  | b : bool |- _ => destruct b; cbn [andb] in HA; [|discriminate HA]
  end;
  try match goal with
      | H : _ && _ = false |- _ => cbn [andb] in H; discriminate H
      end;
  repeat match goal with H : true = true -> _ |- _ => specialize (H eq_refl) end;
  repeat match goal with
  | H : ?lhs = _ |- context [?lhs] => rewrite H
  end;
  cbn [length Nat.add]; discriminate.

(** [main] from the empty log. *)
Lemma main_run (key : str) :
  strip (environ_get environ (lit "LAMINAR_API_KEY") []) = key -> key <> [] ->
  exists c tr, main world environ [] = (c, tr) /\ main_summary world environ key c tr.
Proof.
intros Hkey Hne.
unfold main, get_api_key. rewrite Hkey.
destruct key as [|k0 key']; [congruence|]. set (key := k0 :: key') in *.
walk_main key.
all: unfold main_summary.
all: split; [apply (log_opens_rev _ [EvPrint stdout (str_mul (lit "=") 50);
              EvPrint stdout ([newline] ++ lit "Laminar Service Verification")]);
             log_opens|].
all: split; [intros U1 U2 U3;
  try (rewrite printable_app, ?U1, ?U2, ?U3 in Pui; vm_compute in Pui; discriminate Pui);
  try (rewrite printable_app, ?U1, ?U2, ?U3 in Phttp; vm_compute in Phttp; discriminate Phttp);
  try (rewrite printable_app, ?U1, ?U2, ?U3 in Pgrpc; vm_compute in Pgrpc; discriminate Pgrpc);
  destruct F1 as (o1 & after & F1); exists o1;
  apply (log_opens_rev _
           (EvCall (httpx_get (BASE_URL environ ++ lit "/sign-in") 15 true) o1 ::
            rev (banner environ)));
  rewrite F1; unfold banner; cbn [rev app]; log_opens|].
all: clear Pui; try clear Phttp; try clear Pgrpc; try clear F1; digest.
all: split; [rewrite authorizations_exporters; read_log;
             cbn [List.map exporter_headers grpc_exporter http_exporter app];
             repeat constructor|].
all: split; [read_log; rewrite ?Forall_app; repeat split; assumption || constructor|].
all: split; [first [left; reflexivity | right; left; reflexivity
                   | right; right; eexists; reflexivity]|].
1: { repeat match goal with b : bool |- _ => destruct b; [|discriminate Hall] end.
     repeat match goal with H : true = true -> _ |- _ => specialize (H eq_refl) end.
     split; [intros _|reflexivity]. read_log. split; reflexivity. }
all: all_passed_is_absurd.
Qed.

(** The prints of a run that all went through: each probe that returned
    recorded one check and printed its line. *)
Ltac no_print_failed :=
  let Hpf := fresh "Hpf" in
  intros Hpf; revert Hpf; read_log; cbn [orb];
  intros Hpf; try discriminate Hpf;
  repeat (apply orb_false_elim in Hpf as [? Hpf]);
  repeat match goal with
  | L : existsb print_failed ?n = false -> _, H : existsb print_failed ?n = false |- _ =>
      let r := fresh "r" in
      destruct (L H) as (r & ? & ? & ? & ?); clear L
  end.

Lemma main_shape_holds (key : str) :
  strip (environ_get environ (lit "LAMINAR_API_KEY") []) = key -> key <> [] ->
  exists c tr, main world environ [] = (c, tr) /\ main_shape environ key c tr.
Proof.
intros Hkey Hne.
unfold main, get_api_key. rewrite Hkey.
destruct key as [|k0 key']; [congruence|]. set (key := k0 :: key') in *.
walk_main key.
all: clear Pui; try clear Phttp; try clear Pgrpc; try clear F1; digest.
all: unfold main_shape; no_print_failed.
all: repeat match goal with H : _ = _ |- _ => progress (rewrite H) end.
all: unfold transcript, stdout_lines, banner, check_labels.
all: cbn [rev app take drop length Nat.eqb Nat.add List.map summary_lines omap list_omap
          stdout_line forallb andb].
all: unfold summary_lines; cbn [List.map forallb andb length].
all: repeat match goal with H : _ = _ |- _ => progress (rewrite H) end.
all: split; [reflexivity|].
all: first [ left; do 2 (split; [reflexivity|]);
             repeat match goal with b : bool |- _ => destruct b end;
             first [reflexivity | discriminate Hall]
           | right; repeat split; eauto ].
Qed.

Lemma main_traffic_holds (key : str) :
  strip (environ_get environ (lit "LAMINAR_API_KEY") []) = key -> key <> [] ->
  exists c tr, main world environ [] = (c, tr) /\ main_traffic environ key tr.
Proof.
intros Hkey Hne.
unfold main, get_api_key. rewrite Hkey.
destruct key as [|k0 key']; [congruence|]. set (key := k0 :: key') in *.
walk_main key.
all: clear Pui; try clear Phttp; try clear Pgrpc; try clear F1; digest.
all: try (destruct Hrqs as [-> | ->]).
all: unfold main_traffic.
all: split; [read_log; cbn [rev app];
             first [exists 0%nat; reflexivity | exists 1%nat; reflexivity
                   | exists 2%nat; reflexivity | exists 3%nat; reflexivity]|].
all: split; [read_log; cbn [rev app];
             first [exists 0%nat; reflexivity | exists 1%nat; reflexivity
                   | exists 2%nat; reflexivity]|].
all: no_print_failed; cbn [rev app].
all: split; first [left; reflexivity | right; reflexivity].
Qed.

End Run.

(** * The configuration *)

Lemma is_blank_strip (environ : gmap (list N) (list N)) :
  is_blank (environ !! lit "LAMINAR_API_KEY") = true <->
  strip (environ_get environ (lit "LAMINAR_API_KEY") []) = [].
Proof.
unfold environ_get. destruct (environ !! lit "LAMINAR_API_KEY") as [v|]; simpl.
- symmetry. apply strip_nil_iff.
- split; reflexivity.
Qed.



(** C3 as stated fails: a URL variable set to the empty string is not
    replaced by the default; the resolved URL is the empty string. *)
Lemma empty_url_variable_is_kept :
  env_empty_url !! lit "LAMINAR_BASE_URL" = Some [] /\
  BASE_URL env_empty_url = [] /\
  BASE_URL env_empty_url <> lit "https://laminar.orbitronai.com".
Proof. vm_compute. repeat split; discriminate. Qed.

(** C3, amended.  Each of the three URLs is the production default when
    its variable is absent, and the variable's value whenever the variable
    is set, the empty string included. *)
Theorem endpoint_urls_default_when_absent (environ : gmap (list N) (list N)) :
  BASE_URL environ =
    match environ !! lit "LAMINAR_BASE_URL" with
    | None => lit "https://laminar.orbitronai.com"
    | Some v => v
    end /\
  OTLP_GRPC_URL environ =
    match environ !! lit "LAMINAR_OTLP_GRPC_URL" with
    | None => lit "https://otlp-grpc.laminar.orbitronai.com:443"
    | Some v => v
    end /\
  OTLP_HTTP_URL environ =
    match environ !! lit "LAMINAR_OTLP_HTTP_URL" with
    | None => lit "https://otlp-http.laminar.orbitronai.com"
    | Some v => v
    end.
Proof.
unfold BASE_URL, OTLP_GRPC_URL, OTLP_HTTP_URL, environ_get.
repeat split; match goal with |- context [environ !! ?k] => destruct (environ !! k) end;
  reflexivity.
Qed.

(** C10.  When [get_api_key] returns, what it returns is the value of the
    variable stripped: it is not empty, it neither starts nor ends with
    white space, and it is this stripped string that every exporter of the
    run gets in its authorization header and that the SDK is initialised
    with. *)
Theorem get_api_key_returns_stripped
    (world : World) (environ : gmap (list N) (list N))
    (tr tr' : list event) (key : str) :
  get_api_key environ tr = (Normal key, tr') ->
  key = strip (environ_get environ (lit "LAMINAR_API_KEY") []) /\
  key <> [] /\
  (forall c, head key = Some c -> isspace c = false) /\
  (forall c, last key = Some c -> isspace c = false) /\
  Forall (eq [(lit "authorization", lit "Bearer " ++ key)])
         (authorizations (snd (run world environ))) /\
  Forall (eq key) (sdk_keys (snd (run world environ))).
Proof.
unfold get_api_key.
destruct (strip (environ_get environ (lit "LAMINAR_API_KEY") [])) as [|c0 key0] eqn:Hs;
  [discriminate|].
intros [= <- _].
assert (Hne : c0 :: key0 <> []) by discriminate.
split; [reflexivity|]. split; [exact Hne|].
split; [intros c; rewrite <- Hs; apply strip_head|].
split; [intros c; rewrite <- Hs; apply strip_last|].
destruct (main_run world environ _ Hs Hne) as (c & log & Hmain & _ & _ & Hauth & Hsdk & _).
unfold run. rewrite Hmain. cbn [snd].
unfold authorizations, sdk_keys in *. rewrite !omap_rev.
split; apply Forall_rev; assumption.
Qed.

Lemma get_api_key_returns_stripped_witness :
  get_api_key env_padded_key [] = (Normal (lit "k-123"), []) /\
  authorizations (snd (run healthy env_padded_key)) =
    [[(lit "authorization", lit "Bearer k-123")];
     [(lit "authorization", lit "Bearer k-123")]] /\
  (lit "k-123" = strip (environ_get env_padded_key (lit "LAMINAR_API_KEY") []) /\
   lit "k-123" <> [] /\
   (forall c, head (lit "k-123") = Some c -> isspace c = false) /\
   (forall c, last (lit "k-123") = Some c -> isspace c = false) /\
   Forall (eq [(lit "authorization", lit "Bearer " ++ lit "k-123")])
          (authorizations (snd (run healthy env_padded_key))) /\
   Forall (eq (lit "k-123")) (sdk_keys (snd (run healthy env_padded_key)))).
Proof.
split; [vm_compute; reflexivity|].
split; [vm_compute; reflexivity|].
apply (get_api_key_returns_stripped healthy env_padded_key [] [] (lit "k-123")).
vm_compute; reflexivity.
Defined.

(** * The connectivity probes *)





(** * The export probes *)



(** C5 fails on the code: the gRPC exporter is built outside the [try], so
    an exception of its constructor leaves [check_grpc_export]; no
    [CheckResult] is recorded. *)
Lemma grpc_exporter_exception_leaves_probe :
  check_grpc_export grpc_exporter_rejected env_padded_key (lit "k-123") [] =
  (Raised (Exception (lit "invalid compression")),
   [EvCall
      (new_exporter
         (GrpcExporter (lit "https://otlp-grpc.laminar.orbitronai.com:443")
            [(lit "authorization", lit "Bearer k-123")]))
      (Raises (Exception (lit "invalid compression")))]).
Proof. vm_compute. reflexivity. Qed.


(** C6 fails on the code: when [force_flush] raises, the probe has built
    its tracer provider, goes to the handler and never calls [shutdown];
    the check is recorded as failed and the provider is left as it is. *)
Lemma flush_exception_skips_shutdown :
  fst (check_grpc_export flush_raises env_padded_key (lit "k-123") []) = Normal false /\
  existsb is_pipeline_built
    (snd (check_grpc_export flush_raises env_padded_key (lit "k-123") [])) = true /\
  omap raised_exc
    (snd (check_grpc_export flush_raises env_padded_key (lit "k-123") [])) =
    [Exception (lit "connection refused")] /\
  existsb is_shutdown
    (snd (check_grpc_export flush_raises env_padded_key (lit "k-123") [])) = false.
Proof. vm_compute. repeat split. Qed.

(** X3.  What does hold of C6: however [_export_and_check] ends, [shutdown]
    is called exactly when [force_flush] returned, whatever flag it
    returned. *)
Theorem shutdown_iff_flush_returned
    (world : World) (lbl : str) (e : exporter) (tr : list event) :
  exists c new,
    _export_and_check world lbl e tr = (c, new ++ tr) /\
    existsb is_shutdown new =
      match omap flushed_flag new with [] => false | _ :: _ => true end.
Proof.
destruct (export_and_check_calls world lbl e tr) as (c & new & Heq & Hs & _).
exists c, new. auto.
Qed.

(** * The run *)




(** C9 fails on the code: when the gRPC exporter cannot be built, the
    run ends after four checks, with the exception at top level (status
    1); the two direct export checks record nothing. *)
Lemma rejected_exporter_cuts_run_short :
  fst (run grpc_exporter_rejected env_padded_key) = 1 /\
  List.map label (results_of (snd (run grpc_exporter_rejected env_padded_key))) =
    [ lit "UI reachable"; lit "OTLP/HTTP endpoint";
      lit "OTLP/gRPC endpoint (HTTP/2 :443)"; lit "lmnr SDK trace export" ].
Proof. vm_compute. split; reflexivity. Qed.

Lemma run_shape (world : World) (environ : gmap (list N) (list N)) :
  strip (environ_get environ (lit "LAMINAR_API_KEY") []) <> [] ->
  existsb print_failed (snd (run world environ)) = false ->
  stdout_lines (snd (run world environ)) =
    transcript environ (results_of (snd (run world environ))) /\
  (existsb exporter_rejected (snd (run world environ)) = false ->
   List.map label (results_of (snd (run world environ))) = check_labels).
Proof.
intros Hne.
destruct (main_shape_holds world environ _ eq_refl Hne) as (c & tr & Hmain & Hshape).
unfold run. rewrite Hmain. cbn [snd]. rewrite !existsb_rev. intros Hpf.
destruct (Hshape Hpf) as [Hout [(_ & Hlbl & _) | (Hrej & _)]].
- auto.
- split; [exact Hout|]. congruence.
Qed.

(** X1.  What does hold of C9: in a run whose credential resolves, in which
    no exporter constructor raises and no [print] fails, the six checks
    are recorded once each, in the order of [check_labels], whatever each
    of them found. *)
Theorem six_checks_in_order_when_exporters_build
    (world : World) (environ : gmap (list N) (list N)) :
  strip (environ_get environ (lit "LAMINAR_API_KEY") []) <> [] ->
  existsb exporter_rejected (snd (run world environ)) = false ->
  existsb print_failed (snd (run world environ)) = false ->
  List.map label (results_of (snd (run world environ))) = check_labels.
Proof.
intros Hne Hrej Hpf. destruct (run_shape world environ Hne Hpf) as [_ H]. auto.
Qed.

Lemma six_checks_in_order_when_exporters_build_witness :
  List.map label (results_of (snd (run ui_not_found env_padded_key))) = check_labels /\
  List.map passed (results_of (snd (run ui_not_found env_padded_key))) =
    [false; true; true; true; true; true].
Proof.
split; [|vm_compute; reflexivity].
apply (six_checks_in_order_when_exporters_build ui_not_found env_padded_key).
- vm_compute; discriminate.
- vm_compute; reflexivity.
- vm_compute; reflexivity.
Defined.

(** ** What a run prints, requests and builds *)

(** X4.  When no [print] of a run with a resolved credential fails,
    everything it prints on the standard output is settled by the checks
    it recorded: the banner, then one line per check in the order the
    checks were made (with the export heading after the third), then, when
    all six checks were made and only then, the separator, the line
    "Results: p/6 passed" with p the number of passed checks, and the
    closing line that says whether all passed. *)
Theorem stdout_is_the_transcript
    (world : World) (environ : gmap (list N) (list N)) :
  strip (environ_get environ (lit "LAMINAR_API_KEY") []) <> [] ->
  existsb print_failed (snd (run world environ)) = false ->
  stdout_lines (snd (run world environ)) =
  transcript environ (results_of (snd (run world environ))).
Proof. intros Hne Hpf. apply (run_shape world environ Hne Hpf). Qed.

Lemma stdout_is_the_transcript_witness :
  strip (environ_get env_padded_key (lit "LAMINAR_API_KEY") []) <> [] /\
  List.map passed (results_of (snd (run ui_refuses env_padded_key))) =
    [false; true; true; true; true; true] /\
  stdout_lines (snd (run ui_refuses env_padded_key)) =
  transcript env_padded_key (results_of (snd (run ui_refuses env_padded_key))).
Proof.
split; [vm_compute; discriminate|].
split; [vm_compute; reflexivity|].
apply (stdout_is_the_transcript ui_refuses env_padded_key).
- vm_compute; discriminate.
- vm_compute; reflexivity.
Defined.

(** X5.  A run with a resolved credential sends the UI request, then the
    OTLP/HTTP request, then the OTLP/gRPC request, each to the URL the
    configuration gives and none with an authorization header, as far as
    it gets: what it sent is an initial part of these three, so nothing is
    sent twice or out of order.  It builds the gRPC exporter first and the
    HTTP exporter after it, each on its configured endpoint with the
    stripped credential as bearer token, again as far as it gets.  When no
    [print] failed, the first two requests were sent (the third too,
    unless the HTTP/2 client could not be opened) and the gRPC exporter
    was tried. *)
Theorem requests_and_exporters_of_a_run
    (world : World) (environ : gmap (list N) (list N)) :
  strip (environ_get environ (lit "LAMINAR_API_KEY") []) <> [] ->
  let key := strip (environ_get environ (lit "LAMINAR_API_KEY") []) in
  (exists k, requests (snd (run world environ)) =
             take k [ui_request environ; otlp_http_request environ;
                     otlp_grpc_request environ]) /\
  (exists k, exporters (snd (run world environ)) =
             take k [grpc_exporter environ key; http_exporter environ key]) /\
  (existsb print_failed (snd (run world environ)) = false ->
   (requests (snd (run world environ)) =
      [ui_request environ; otlp_http_request environ; otlp_grpc_request environ] \/
    requests (snd (run world environ)) =
      [ui_request environ; otlp_http_request environ]) /\
   (exporters (snd (run world environ)) =
      [grpc_exporter environ key; http_exporter environ key] \/
    exporters (snd (run world environ)) = [grpc_exporter environ key])).
Proof.
intros Hne key.
destruct (main_traffic_holds world environ _ eq_refl Hne) as (c & tr & Hmain & Hrq & Hex & H).
unfold run. rewrite Hmain. cbn [snd]. rewrite existsb_rev. auto.
Qed.

Lemma requests_and_exporters_of_a_run_witness :
  strip (environ_get env_padded_key (lit "LAMINAR_API_KEY") []) <> [] /\
  requests (snd (run healthy_ascii env_padded_key)) = [ui_request env_padded_key] /\
  exporters (snd (run grpc_exporter_rejected env_padded_key)) =
    [grpc_exporter env_padded_key (lit "k-123")] /\
  exists k,
    requests (snd (run healthy_ascii env_padded_key)) =
    take k [ui_request env_padded_key; otlp_http_request env_padded_key;
            otlp_grpc_request env_padded_key].
Proof.
split; [vm_compute; discriminate|].
split; [vm_compute; reflexivity|].
split; [vm_compute; reflexivity|].
apply (requests_and_exporters_of_a_run healthy_ascii env_padded_key).
vm_compute; discriminate.
Defined.

(** ** The gRPC reachability probe and the [with] blocks *)


(** X7.  The two [with] blocks of the verifier release what they opened on
    every path: however [check_otlp_grpc_reachable] ends, the HTTP/2
    client is closed exactly when it was opened, and however
    [_export_and_check] ends, the span is ended exactly when it was
    started, also when the body raised. *)
Theorem with_blocks_release_on_every_path
    (world : World) (environ : gmap (list N) (list N)) (tr : list event) :
  (exists c new,
      check_otlp_grpc_reachable world environ tr = (c, new ++ tr) /\
      existsb client_closed new = existsb client_opened new) /\
  (forall lbl e, exists c new,
      _export_and_check world lbl e tr = (c, new ++ tr) /\
      existsb span_ended new = existsb span_started new).
Proof.
split.
- destruct (otlp_grpc_probe world environ [] tr)
    as (c & new & r & Heq & _ & _ & _ & _ & _ & _ & Hc & _).
  exists c, new. auto.
- intros lbl e.
  destruct (export_and_check_calls world lbl e tr) as (c & new & Heq & _ & Hs).
  exists c, new. auto.
Qed.

(** ** The configuration, again *)

Lemma lstrip_fixed (s : str) :
  (forall c, head s = Some c -> isspace c = false) -> lstrip s = s.
Proof.
destruct s as [|c s]; simpl; [reflexivity|].
intros H. rewrite (H c eq_refl). reflexivity.
Qed.

Lemma strip_idempotent (s : str) : strip (strip s) = strip s.
Proof.
unfold strip at 1.
rewrite (lstrip_fixed (strip s)) by apply strip_head.
unfold rstrip.
rewrite (lstrip_fixed (rev (strip s))); [apply rev_involutive|].
intros c Hc. apply (strip_last s). rewrite <- Hc.
rewrite <- (rev_involutive (strip s)) at 1. apply last_rev.
Qed.

(** X8.  When [get_api_key] returns, the variable is set and its value is
    the returned key with white space before and after it: the key is cut
    at the ends only, its inside is as in the environment. *)
Theorem get_api_key_trims_the_ends_only
    (environ : gmap (list N) (list N)) (tr tr' : list event) (key : str) :
  get_api_key environ tr = (Normal key, tr') ->
  exists before after,
    environ !! lit "LAMINAR_API_KEY" = Some (before ++ key ++ after) /\
    forallb isspace before = true /\ forallb isspace after = true.
Proof.
unfold get_api_key, environ_get.
destruct (environ !! lit "LAMINAR_API_KEY") as [v|]; simpl; [|discriminate].
destruct (strip v) as [|c0 key0] eqn:Hs; [discriminate|].
intros [= <- _]. rewrite <- Hs.
destruct (lstrip_split v) as (before & Hv & Hb).
destruct (rstrip_split (lstrip v)) as (after & Hl & Ha).
exists before, after. split; [|split; assumption].
f_equal. rewrite Hv at 1. f_equal. exact Hl.
Qed.

Lemma get_api_key_trims_the_ends_only_witness :
  get_api_key env_padded_key [] = (Normal (lit "k-123"), []) /\
  exists before after,
    env_padded_key !! lit "LAMINAR_API_KEY" = Some (before ++ lit "k-123" ++ after) /\
    forallb isspace before = true /\ forallb isspace after = true.
Proof.
split; [vm_compute; reflexivity|].
apply (get_api_key_trims_the_ends_only env_padded_key [] [] (lit "k-123")).
vm_compute; reflexivity.
Defined.

(** The run reads the environment through the credential, stripped, and
    the three URLs, and through nothing else. *)
Lemma run_congruence
    (world : World) (environ1 environ2 : gmap (list N) (list N)) :
  strip (environ_get environ1 (lit "LAMINAR_API_KEY") []) =
  strip (environ_get environ2 (lit "LAMINAR_API_KEY") []) ->
  BASE_URL environ1 = BASE_URL environ2 ->
  OTLP_GRPC_URL environ1 = OTLP_GRPC_URL environ2 ->
  OTLP_HTTP_URL environ1 = OTLP_HTTP_URL environ2 ->
  run world environ1 = run world environ2.
Proof.
intros Hk Hb Hg Hh.
unfold run, main, get_api_key, check_ui_reachable, check_otlp_http_reachable,
  check_otlp_grpc_reachable, check_sdk_export, check_grpc_export, check_http_export.
rewrite Hk, Hb, Hg, Hh. reflexivity.
Qed.

(** X10.  White space around the value of the credential variable changes
    nothing: the run with a value and the run with the value stripped have
    the same exit status and the same log, in every world. *)
Theorem padding_of_the_credential_is_immaterial
    (world : World) (environ : gmap (list N) (list N)) (v : str) :
  run world (<[lit "LAMINAR_API_KEY" := v]> environ) =
  run world (<[lit "LAMINAR_API_KEY" := strip v]> environ).
Proof.
apply run_congruence;
  unfold BASE_URL, OTLP_GRPC_URL, OTLP_HTTP_URL, environ_get.
- rewrite !lookup_insert_eq. simpl. symmetry. apply strip_idempotent.
- rewrite !lookup_insert_ne; [reflexivity| |]; intros H; vm_compute in H; discriminate H.
- rewrite !lookup_insert_ne; [reflexivity| |]; intros H; vm_compute in H; discriminate H.
- rewrite !lookup_insert_ne; [reflexivity| |]; intros H; vm_compute in H; discriminate H.
Qed.

(** * The direct examples *)

#[local] Arguments lit : simpl never.

Section DirectExamples.

Variable world : Otel.OWorld.
Variable environ : gmap (list N) (list N).

Ltac answer_oworld :=
  match goal with
  | |- context [Otel.oanswers world ?t ?R ?c] =>
      let o := fresh "o" in
      destruct (Otel.oanswers world t R c) as [o|o] eqn:?; try destruct o;
      cbn [fst snd exit_status rev app]
  end.

(** The next [print]: a plain ASCII line is printed, any other may fail. *)
Ltac oprint_step :=
  match goal with
  | |- context [printable (Otel.oconsole world) ?s] =>
      first [ change (printable (Otel.oconsole world) s) with true
            | destruct (printable (Otel.oconsole world) s) eqn:? ];
      cbn [fst snd exit_status rev app]
  end.

Ltac run_example :=
  cbv beta iota zeta delta [Example03.run Example03.main Example03.setup_tracer
    Example04.run Example04.main Example04.setup_tracer
    Otel.with_span Otel.with_ Otel.bind Otel.ret Otel.raise Otel.sys_exit
    Otel.print Otel.ext];
  repeat first [answer_oworld | oprint_step].

Lemma example03_facts (key : str) :
  strip (environ_get environ (lit "LAMINAR_API_KEY") []) = key -> key <> [] ->
  exists c tr,
    Example03.main world environ [] = (c, tr) /\
    direct_example_facts
      (GrpcExporter (OTLP_GRPC_URL environ) [(lit "authorization", lit "Bearer " ++ key)])
      (lit "laminar-grpc-example")
      [lit "retrieve-documents"; lit "analyze-compliance"; lit "agent-workflow"]
      (exit_status c) (rev tr).
Proof.
intros Hkey Hne.
cbv beta iota zeta delta [Example03.main Example03.setup_tracer
  Otel.get_api_key get_api_key Otel.bind].
rewrite Hkey. destruct key as [|k0 key']; [congruence|]. set (key := k0 :: key') in *.
cbn [print_err emit bind ret omap list_omap Otel.printed app].
clearbody key. generalize (OTLP_GRPC_URL environ). intros url.
run_example.
all: eexists _, _; (split; [reflexivity|]).
all: unfold direct_example_facts; vm_compute.
all: repeat split; intros; try discriminate; try reflexivity.
all: try (eexists _, _; reflexivity).
all: repeat constructor.
Qed.

Lemma example03_blank :
  is_blank (environ !! lit "LAMINAR_API_KEY") = true ->
  Example03.run world environ = (1, [Otel.OPrint stderr remediation]).
Proof.
intros Hb. apply is_blank_strip in Hb.
unfold Example03.run, Example03.main, Otel.bind, Otel.get_api_key, get_api_key.
rewrite Hb. reflexivity.
Qed.

Lemma example04_facts (key : str) :
  strip (environ_get environ (lit "LAMINAR_API_KEY") []) = key -> key <> [] ->
  exists c tr,
    Example04.main world environ [] = (c, tr) /\
    direct_example_facts
      (HttpExporter (OTLP_HTTP_URL environ ++ lit "/v1/traces")
         [(lit "authorization", lit "Bearer " ++ key)])
      (lit "laminar-http-example")
      [lit "extract"; lit "transform"; lit "load"; lit "data-pipeline"]
      (exit_status c) (rev tr).
Proof.
intros Hkey Hne.
cbv beta iota zeta delta [Example04.main Example04.setup_tracer
  Otel.get_api_key get_api_key Otel.bind].
rewrite Hkey. destruct key as [|k0 key']; [congruence|]. set (key := k0 :: key') in *.
cbn [print_err emit bind ret omap list_omap Otel.printed app].
clearbody key. generalize (OTLP_HTTP_URL environ). intros url.
run_example.
all: eexists _, _; (split; [reflexivity|]).
all: unfold direct_example_facts; vm_compute.
all: repeat split; intros; try discriminate; try reflexivity.
all: try (eexists _, _; reflexivity).
all: repeat constructor.
Qed.

Lemma example04_blank :
  is_blank (environ !! lit "LAMINAR_API_KEY") = true ->
  Example04.run world environ = (1, [Otel.OPrint stderr remediation]).
Proof.
intros Hb. apply is_blank_strip in Hb.
unfold Example04.run, Example04.main, Otel.bind, Otel.get_api_key, get_api_key.
rewrite Hb. reflexivity.
Qed.

End DirectExamples.

(** ** examples/03_otlp_grpc_direct.py *)

Lemma example03_run (world : Otel.OWorld) (environ : gmap (list N) (list N)) :
  is_blank (environ !! lit "LAMINAR_API_KEY") = false ->
  direct_example_facts
    (GrpcExporter (OTLP_GRPC_URL environ)
       [(lit "authorization", lit "Bearer " ++
           strip (environ_get environ (lit "LAMINAR_API_KEY") []))])
    (lit "laminar-grpc-example")
    [lit "retrieve-documents"; lit "analyze-compliance"; lit "agent-workflow"]
    (fst (Example03.run world environ)) (snd (Example03.run world environ)).
Proof.
intros Hb.
assert (Hne : strip (environ_get environ (lit "LAMINAR_API_KEY") []) <> []).
{ intros E. apply is_blank_strip in E. congruence. }
destruct (example03_facts world environ _ eq_refl Hne) as (c & tr & Hmain & Hfacts).
unfold Example03.run. rewrite Hmain. exact Hfacts.
Qed.




(** X13.  In every run of example 03, in every world, each span that was
    started is ended, innermost first, and none is left open at the end,
    also when a call inside a span raises. *)
Theorem example03_spans_close_innermost_first
    (world : Otel.OWorld) (environ : gmap (list N) (list N)) :
  open_spans (snd (Example03.run world environ)) [] = Some [].
Proof.
destruct (is_blank (environ !! lit "LAMINAR_API_KEY")) eqn:Hb.
- rewrite (example03_blank world environ Hb). reflexivity.
- destruct (example03_run world environ Hb) as (_ & _ & Hspans & _). exact Hspans.
Qed.

(** X14.  In every run of example 03: a flush of the provider is
    attempted exactly when the global API handed back an SDK provider; by
    then every span has ended, children before the parent, and no call
    before the flush raised; and the provider is never shut down. *)
Theorem example03_flush_follows_the_spans
    (world : Otel.OWorld) (environ : gmap (list N) (list N)) :
  existsb flush_attempted (snd (Example03.run world environ)) =
    existsb sdk_provider_found (snd (Example03.run world environ)) /\
  (existsb flush_attempted (snd (Example03.run world environ)) = true ->
   omap ospan_ended (snd (Example03.run world environ)) =
     [lit "retrieve-documents"; lit "analyze-compliance"; lit "agent-workflow"] /\
   forallb (fun ev => negb (oraised ev) || flush_attempted ev)
     (snd (Example03.run world environ)) = true) /\
  existsb oshutdown (snd (Example03.run world environ)) = false.
Proof.
destruct (is_blank (environ !! lit "LAMINAR_API_KEY")) eqn:Hb.
- rewrite (example03_blank world environ Hb). cbn. repeat split; discriminate.
- destruct (example03_run world environ Hb) as (_ & _ & _ & Hfl & Hafter & Hshut & _).
  split; [exact Hfl|]. split; [|exact Hshut].
  rewrite Hfl. exact Hafter.
Qed.

(** ** examples/04_otlp_http_direct.py *)

Lemma example04_run (world : Otel.OWorld) (environ : gmap (list N) (list N)) :
  is_blank (environ !! lit "LAMINAR_API_KEY") = false ->
  direct_example_facts
    (HttpExporter (OTLP_HTTP_URL environ ++ lit "/v1/traces")
       [(lit "authorization", lit "Bearer " ++
           strip (environ_get environ (lit "LAMINAR_API_KEY") []))])
    (lit "laminar-http-example")
    [lit "extract"; lit "transform"; lit "load"; lit "data-pipeline"]
    (fst (Example04.run world environ)) (snd (Example04.run world environ)).
Proof.
intros Hb.
assert (Hne : strip (environ_get environ (lit "LAMINAR_API_KEY") []) <> []).
{ intros E. apply is_blank_strip in E. congruence. }
destruct (example04_facts world environ _ eq_refl Hne) as (c & tr & Hmain & Hfacts).
unfold Example04.run. rewrite Hmain. exact Hfacts.
Qed.




(** X17.  In every run of example 04, in every world, each span that was
    started is ended, innermost first, and none is left open at the end,
    also when a call inside a span raises. *)
Theorem example04_spans_close_innermost_first
    (world : Otel.OWorld) (environ : gmap (list N) (list N)) :
  open_spans (snd (Example04.run world environ)) [] = Some [].
Proof.
destruct (is_blank (environ !! lit "LAMINAR_API_KEY")) eqn:Hb.
- rewrite (example04_blank world environ Hb). reflexivity.
- destruct (example04_run world environ Hb) as (_ & _ & Hspans & _). exact Hspans.
Qed.

(** X18.  In every run of example 04: a flush of the provider is
    attempted exactly when the global API handed back an SDK provider; by
    then every span has ended, children before the parent, and no call
    before the flush raised; and the provider is never shut down. *)
Theorem example04_flush_follows_the_spans
    (world : Otel.OWorld) (environ : gmap (list N) (list N)) :
  existsb flush_attempted (snd (Example04.run world environ)) =
    existsb sdk_provider_found (snd (Example04.run world environ)) /\
  (existsb flush_attempted (snd (Example04.run world environ)) = true ->
   omap ospan_ended (snd (Example04.run world environ)) =
     [lit "extract"; lit "transform"; lit "load"; lit "data-pipeline"] /\
   forallb (fun ev => negb (oraised ev) || flush_attempted ev)
     (snd (Example04.run world environ)) = true) /\
  existsb oshutdown (snd (Example04.run world environ)) = false.
Proof.
destruct (is_blank (environ !! lit "LAMINAR_API_KEY")) eqn:Hb.
- rewrite (example04_blank world environ Hb). cbn. repeat split; discriminate.
- destruct (example04_run world environ Hb) as (_ & _ & _ & Hfl & Hafter & Hshut & _).
  split; [exact Hfl|]. split; [|exact Hshut].
  rewrite Hfl. exact Hafter.
Qed.

(** * Example 01 *)

Lemma dict_get_set_eq (k : str) (v : Example01.value) (d : Example01.dict) :
  Example01.dict_get k (Example01.dict_set k v d) = Some v.
Proof.
induction d as [|[k' v'] d IH]; simpl.
- rewrite bool_decide_eq_true_2; reflexivity.
- destruct (bool_decide (k' = k)) eqn:E; simpl; rewrite E; [reflexivity | exact IH].
Qed.

Lemma dict_get_set_ne (k k0 : str) (v : Example01.value) (d : Example01.dict) :
  k0 <> k -> Example01.dict_get k (Example01.dict_set k0 v d) = Example01.dict_get k d.
Proof.
intros Hne. induction d as [|[k' v'] d IH]; simpl.
- rewrite bool_decide_eq_false_2; [reflexivity | exact Hne].
- destruct (bool_decide (k' = k0)) eqn:E; simpl.
  + apply bool_decide_eq_true_1 in E. subst k'.
    rewrite bool_decide_eq_false_2; [reflexivity | exact Hne].
  + destruct (bool_decide (k' = k)); [reflexivity | exact IH].
Qed.

(** Setting a key keeps the keys that were there, in their order. *)
Lemma dict_set_keys (k : str) (v : Example01.value) (d : Example01.dict) :
  exists new, List.map fst (Example01.dict_set k v d) = List.map fst d ++ new.
Proof.
induction d as [|[k' v'] d [new IH]]; simpl.
- exists [k]. reflexivity.
- destruct (bool_decide (k' = k)); simpl.
  + exists []. rewrite app_nil_r. reflexivity.
  + exists new. rewrite IH. reflexivity.
Qed.

(** X19.  When [enrich_profile] returns, the record it hands back has
    "enriched" set to [True] and "risk_score" set to 0.12, every other key
    has the value it had, and the keys that were there keep their order
    (new keys go last). *)
Theorem enrich_profile_adds_two_fields
    (world : World) (user d : Example01.dict) (tr tr' : list event) :
  Example01.enrich_profile world user tr = (Normal d, tr') ->
  Example01.dict_get (lit "enriched") d = Some (Example01.VBool true) /\
  Example01.dict_get (lit "risk_score") d = Some (Example01.VFloat (lit "0.12")) /\
  (forall k, k <> lit "enriched" -> k <> lit "risk_score" ->
     Example01.dict_get k d = Example01.dict_get k user) /\
  (exists new, List.map fst d = List.map fst user ++ new).
Proof.
unfold Example01.enrich_profile, Example01.observed, with_, bind, ext, ret, raise.
repeat match goal with
  | |- context [answers world ?t ?R ?c] => destruct (answers world t R c) as [[]|?]
  end; intros [= <- _] || discriminate.
all: split; [|split; [|split]].
all: try (rewrite dict_get_set_ne, dict_get_set_eq;
          [reflexivity | intros H; vm_compute in H; discriminate H]).
all: try apply dict_get_set_eq.
all: try (intros k H1 H2; rewrite !dict_get_set_ne by congruence; reflexivity).
all: destruct (dict_set_keys (lit "enriched") (Example01.VBool true) user) as [n1 H1];
     destruct (dict_set_keys (lit "risk_score") (Example01.VFloat (lit "0.12"))
                 (Example01.dict_set (lit "enriched") (Example01.VBool true) user)) as [n2 H2];
     exists (n1 ++ n2); rewrite H2, H1, app_assoc; reflexivity.
Qed.

Section Example01Run.

Variable world : World.
Variable environ : gmap (list N) (list N).
Variable format_dict : Example01.dict -> str.



End Example01Run.





Lemma enrich_profile_adds_two_fields_witness :
  Example01.enrich_profile healthy sample_user [] =
    (Normal sample_enriched,
     [EvCall (observe_exit (lit "enrich-profile")) (Returns tt);
      EvCall (time_sleep (Qmake 5 100)) (Returns tt);
      EvCall (observe_enter (lit "enrich-profile")) (Returns tt)]) /\
  (Example01.dict_get (lit "enriched") sample_enriched = Some (Example01.VBool true) /\
   Example01.dict_get (lit "risk_score") sample_enriched =
     Some (Example01.VFloat (lit "0.12")) /\
   (forall k, k <> lit "enriched" -> k <> lit "risk_score" ->
      Example01.dict_get k sample_enriched = Example01.dict_get k sample_user) /\
   (exists new, List.map fst sample_enriched = List.map fst sample_user ++ new)).
Proof.
split; [vm_compute; reflexivity|].
apply (enrich_profile_adds_two_fields healthy sample_user sample_enriched []
         [EvCall (observe_exit (lit "enrich-profile")) (Returns tt);
          EvCall (time_sleep (Qmake 5 100)) (Returns tt);
          EvCall (observe_enter (lit "enrich-profile")) (Returns tt)]).
vm_compute; reflexivity.
Defined.
